(** * The restaurants MCP server: gateway client and tool adapters

    A shallow embedding of [restaurants_mcp_server/restaurants_server.py]:
    the gateway client [call_rapidapi_request] and the two tools
    [search_locations] and [get_restaurants].

    The server is dynamically typed Python over decoded JSON, so the
    embedding carries a small model of the interpreter: JSON values as
    Python sees them, the operators the code applies to them ([in],
    indexing, [.get], [isinstance], slicing, f-string formatting), the
    exceptions those operators raise, and the log the server writes. *)

From Stdlib Require Import String Ascii List ZArith Bool Lia.
From Stdlib Require Import DecimalString Floats.SpecFloat.
Import ListNotations.
Open Scope string_scope.

(** ** Python values and operators *)

Module Py.

(** What [json.loads] produces.  A [dict] keeps its insertion order and
    has string keys; it is an association list whose keys are distinct
    (a lookup takes the first binding). *)
#[warnings="-register-all"]
Inductive value : Type :=
| VNone
| VBool (b : bool)
| VInt (n : Z)
| VFloat (f : spec_float)
| VStr (s : string)
| VList (items : list value)
| VDict (fields : list (string * value)).

Definition dict := list (string * value).

(** The parts of the interpreter that are tables and algorithms of
    CPython itself: the shortest round-trip text of a float and the
    quoting of a string by [repr] (which depends on the Unicode tables). *)
Class Interpreter := {
  float_repr : spec_float -> string;
  str_repr : string -> string
}.

(** Classes of exceptions deriving from [Exception] that the server can
    meet. *)
Inductive exn_class :=
| TypeError
| AttributeError
| KeyError
| TransportError      (* httpx: connection, timeout, protocol failures *)
| HTTPStatusError     (* httpx: raise_for_status *)
| JSONDecodeError     (* json: the body is not JSON *)
| ImportError.        (* a package the HTTP client needs is missing *)

(** Exceptions that derive from [BaseException] and not from
    [Exception]: the cancellation of the running task, an interrupt, and
    the [SystemExit] of [sys.exit].  [except Exception] lets them pass. *)
Inductive base_exception :=
| CancelledError
| KeyboardInterrupt
| Exiting (code : Z).

(** An exception: its class and [str(e)]. *)
Record exn := Exn { exn_cls : exn_class; exn_str : string }.

Definition nl : string := String (ascii_of_nat 10) EmptyString.

Definition str_of_Z (n : Z) : string := NilZero.string_of_int (Z.to_int n).
Definition str_of_nat (n : nat) : string := str_of_Z (Z.of_nat n).

Definition type_name (v : value) : string :=
  match v with
  | VNone => "NoneType"
  | VBool _ => "bool"
  | VInt _ => "int"
  | VFloat _ => "float"
  | VStr _ => "str"
  | VList _ => "list"
  | VDict _ => "dict"
  end.

Section Rendering.
Context {py : Interpreter}.

(** [repr(v)] *)
Fixpoint py_repr (v : value) : string :=
  match v with
  | VNone => "None"
  | VBool true => "True"
  | VBool false => "False"
  | VInt n => str_of_Z n
  | VFloat f => float_repr f
  | VStr s => str_repr s
  | VList items => "[" ++ String.concat ", " (map py_repr items) ++ "]"
  | VDict fields =>
      "{" ++ String.concat ", "
               (map (fun '(k, x) => str_repr k ++ ": " ++ py_repr x) fields)
          ++ "}"
  end.

(** [str(v)], which is also what a replacement field [{v}] of an f-string
    inserts: a string is inserted as it is, anything else as its [repr]. *)
Definition py_str (v : value) : string :=
  match v with
  | VStr s => s
  | _ => py_repr v
  end.

End Rendering.

(** [key in s] on strings: substring test. *)
Fixpoint str_contains (needle hay : string) : bool :=
  match hay with
  | EmptyString => String.prefix needle hay
  | String _ rest => String.prefix needle hay || str_contains needle rest
  end.

Fixpoint dict_lookup (key : string) (d : dict) : option value :=
  match d with
  | [] => None
  | (k, v) :: rest => if String.eqb k key then Some v else dict_lookup key rest
  end.

Definition is_str (key : string) (v : value) : bool :=
  match v with
  | VStr s => String.eqb s key
  | _ => false
  end.

(** [isinstance(v, list)] *)
Definition isinstance_list (v : value) : bool :=
  match v with
  | VList _ => true
  | _ => false
  end.

(** The truth value of a list: [if results]. *)
Definition truthy {A} (l : list A) : bool :=
  match l with
  | [] => false
  | _ :: _ => true
  end.

End Py.
Export Py.

(** ** Effects: the log and exceptions *)

Module Eff.

Inductive level := INFO | WARNING | ERROR.

(** A record handed to [logger]: its level and its message. *)
Definition log_record : Type := level * string.

Inductive outcome (A : Type) : Type :=
| Return (a : A)
| Raise (e : exn)
| Escape (b : base_exception).
Arguments Return {A} a.
Arguments Raise {A} e.
Arguments Escape {A} b.

(** A computation reads the log written so far, appends to it, and
    either returns, raises an [Exception], or is left by an exception that
    is none. *)
Definition M (A : Type) : Type := list log_record -> list log_record * outcome A.

Definition ret {A} (a : A) : M A := fun l => (l, Return a).

Definition bind {A B} (m : M A) (k : A -> M B) : M B :=
  fun l =>
    match m l with
    | (l', Return a) => k a l'
    | (l', Raise e) => (l', Raise e)
    | (l', Escape b) => (l', Escape b)
    end.

Definition raise {A} (c : exn_class) (msg : string) : M A :=
  fun l => (l, Raise (Exn c msg)).

(** An answer of the environment: nothing is logged. *)
Definition lift {A} (o : outcome A) : M A := fun l => (l, o).

(** [logger.info], [logger.warning], [logger.error] *)
Definition log (lv : level) (msg : string) : M unit :=
  fun l => ((l ++ [(lv, msg)])%list, Return tt).

(** [try: body  except Exception as e: handler(e)]; every class of
    [exn_class] derives from [Exception], so the handler takes them all,
    and it takes no [base_exception]. *)
Definition try_except {A} (body : M A) (handler : exn -> M A) : M A :=
  fun l =>
    match body l with
    | (l', Return a) => (l', Return a)
    | (l', Raise e) => handler e l'
    | (l', Escape b) => (l', Escape b)
    end.

(** [async with <enter> as x: body]: the body runs once the context is
    entered, and the context is left on every way out of the body; what
    the leaving raises replaces the pending return or exception. *)
Definition async_with {A} (enter leave : M unit) (body : M A) : M A :=
  fun l =>
    match enter l with
    | (l1, Return _) =>
        match body l1 with
        | (l2, pending) =>
            match leave l2 with
            | (l3, Return _) => (l3, pending)
            | (l3, Raise e) => (l3, Raise e)
            | (l3, Escape b) => (l3, Escape b)
            end
        end
    | (l1, Raise e) => (l1, Raise e)
    | (l1, Escape b) => (l1, Escape b)
    end.

(** What a computation yields, whatever it logs. *)
Definition result_of {A} (m : M A) (l : list log_record) : outcome A := snd (m l).

Definition returns {A} (m : M A) (a : A) : Prop :=
  forall l, result_of m l = Return a.

Definition raises {A} (m : M A) (c : exn_class) : Prop :=
  forall l, exists msg, result_of m l = Raise (Exn c msg).

End Eff.
Export Eff.

Declare Scope eff_scope.
Delimit Scope eff_scope with eff.
Notation "x <- m ;; k" := (bind m (fun x => k))
  (at level 61, m at next level, right associativity) : eff_scope.
Notation "m ;; k" := (bind m (fun _ => k))
  (at level 61, right associativity) : eff_scope.
Open Scope eff_scope.

(** ** Operators that can raise *)

Module Op.

(** [key in container] for a string [key]: key membership on a dict,
    element membership on a list, substring on a string; anything else is
    not a container. *)
Definition py_contains (key : string) (container : value) : M bool :=
  match container with
  | VDict d => ret (match dict_lookup key d with Some _ => true | None => false end)
  | VList items => ret (existsb (is_str key) items)
  | VStr s => ret (str_contains key s)
  | v => raise TypeError ("argument of type '" ++ type_name v ++ "' is not iterable")
  end.

(** [container[key]] for a string [key]. *)
Definition py_getitem `{Interpreter} (container : value) (key : string) : M value :=
  match container with
  | VDict d =>
      match dict_lookup key d with
      | Some v => ret v
      | None => raise KeyError (str_repr key)
      end
  | VList _ => raise TypeError "list indices must be integers or slices, not str"
  | VStr _ => raise TypeError "string indices must be integers, not 'str'"
  | v => raise TypeError ("'" ++ type_name v ++ "' object is not subscriptable")
  end.

(** [obj.get(key, default)]: only a dict has the method. *)
Definition py_get (obj : value) (key : string) (default : value) : M value :=
  match obj with
  | VDict d =>
      match dict_lookup key d with
      | Some v => ret v
      | None => ret default
      end
  | v => raise AttributeError ("'" ++ type_name v ++ "' object has no attribute 'get'")
  end.

Definition chars (s : string) : list value :=
  map (fun c => VStr (String c EmptyString)) (list_ascii_of_string s).

(** [len(v)] *)
Definition py_len (v : value) : M nat :=
  match v with
  | VList items => ret (List.length items)
  | VDict d => ret (List.length d)
  | VStr s => ret (String.length s)
  | v => raise TypeError ("object of type '" ++ type_name v ++ "' has no len()")
  end.

(** The elements [for x in v] visits. *)
Definition py_iter (v : value) : M (list value) :=
  match v with
  | VList items => ret items
  | VDict d => ret (map (fun kv => VStr (fst kv)) d)
  | VStr s => ret (chars s)
  | v => raise TypeError ("'" ++ type_name v ++ "' object is not iterable")
  end.

(** [v[:n]] *)
Definition py_slice_to (n : nat) (v : value) : M value :=
  match v with
  | VList items => ret (VList (firstn n items))
  | VStr s => ret (VStr (String.substring 0 n s))
  | VDict _ => raise KeyError ("slice(None, " ++ str_of_nat n ++ ", None)")
  | v => raise TypeError ("'" ++ type_name v ++ "' object is not subscriptable")
  end.

(** [for x in xs: acc = body(acc, x)], left to right; an exception ends
    the loop. *)
Fixpoint for_each {A S} (xs : list A) (body : S -> A -> M S) (acc : S) : M S :=
  match xs with
  | [] => ret acc
  | x :: rest => acc' <- body acc x ;; for_each rest body acc'
  end.

End Op.
Export Op.

(** ** The server *)

(** An [httpx.Response], as far as the server looks at it: the status
    code, the text httpx gives the [HTTPStatusError] it builds for this
    response, and what [response.json()] does. *)
Record response := {
  status_code : Z;
  status_error : string;
  json : outcome value
}.

(** The process configuration read at import ([KEY], [HOST]; the server
    exits at once when [KEY] is unset or empty) and the network behind
    the HTTP client: what building and entering an [httpx.AsyncClient]
    does, the reply to a GET of a URL with headers, query parameters and a
    timeout in seconds, and what closing the client does. *)
Record environment := {
  KEY : string;
  HOST : string;
  client_open : outcome unit;
  http_get : string -> list (string * string) ->
             option (list (string * string)) -> Z -> outcome response;
  client_close : outcome unit
}.

(** [response.is_success]: the status is 2xx. *)
Definition is_success (r : response) : bool :=
  ((200 <=? status_code r) && (status_code r <=? 299))%Z.

(** [response.raise_for_status()]: httpx raises unless [is_success]. *)
Definition raise_for_status (r : response) : M unit :=
  if is_success r
  then ret tt
  else raise HTTPStatusError (status_error r).

Definition sep : string := nl ++ "---" ++ nl.

Section Server.
Context {py : Interpreter}.
Variable env : environment.

(** The query parameters as the Python value they are ([None] or a dict
    of strings). *)
Definition params_value (params : option (list (string * string))) : value :=
  match params with
  | None => VNone
  | Some ps => VDict (map (fun kv => (fst kv, VStr (snd kv))) ps)
  end.

(** The client is opened before the [try] and closed after it: what
    either raises is not handled here, nor is an exception of the [try]
    body that does not derive from [Exception]. *)
Definition call_rapidapi_request
    (endpoint : string) (params : option (list (string * string))) : M value :=
  let url := "https://" ++ HOST env ++ endpoint in
  let headers := [("X-RapidAPI-Key", KEY env); ("X-RapidAPI-Host", HOST env)] in
  log INFO ("Calling API request to " ++ endpoint ++ " with params: "
              ++ py_str (params_value params)) ;;
  async_with (lift (client_open env)) (lift (client_close env))
    (try_except
       (response <- lift (http_get env url headers params 30) ;;
        raise_for_status response ;;
        log INFO ("API request to " ++ endpoint ++ " successful") ;;
        lift (json response))
       (fun e =>
          log ERROR ("API request to " ++ endpoint ++ " failed: " ++ exn_str e) ;;
          ret (VDict [("error", VStr (exn_str e))]))).

(** The body of the loop of [search_locations]: the text of one entry. *)
Definition location_info (location : value) : M string :=
  name <- py_get location "localizedName" (VStr "Unknown") ;;
  id <- py_get location "locationId" (VStr "Unknown") ;;
  lat <- py_get location "latitude" (VStr "N/A") ;;
  lon <- py_get location "longitude" (VStr "N/A") ;;
  kind <- py_get location "placeType" (VStr "Unknown") ;;
  ret ("Name: " ++ py_str name ++ nl
       ++ "Location Id: " ++ py_str id ++ nl
       ++ "Coordinates: " ++ py_str lat ++ ", " ++ py_str lon ++ nl
       ++ "PlaceType: " ++ py_str kind ++ nl).

(** [search_locations] from the gateway result on (lines 68 to 90). *)
Definition search_locations_reply (query : string) (result : value) : M string :=
  has_error <- py_contains "error" result ;;
  if (has_error : bool) then
    err <- py_getitem result "error" ;;
    log ERROR ("Error in search_locations: " ++ py_str err) ;;
    err <- py_getitem result "error" ;;
    ret ("Error fetching locations: " ++ py_str err)
  else
    let results : list string := [] in
    has_data <- py_contains "data" result ;;
    is_list <- (if (has_data : bool)
                then data <- py_getitem result "data" ;; ret (isinstance_list data)
                else ret false) ;;
    if (is_list : bool) then
      data <- py_getitem result "data" ;;
      locations_count <- py_len data ;;
      log INFO ("Found " ++ str_of_nat locations_count
                  ++ " locations for query: " ++ query) ;;
      data <- py_getitem result "data" ;;
      locations <- py_iter data ;;
      results <- for_each locations
                   (fun results location =>
                      info <- location_info location ;;
                      ret (results ++ [info])%list)
                   results ;;
      ret (if truthy results
           then String.concat sep results
           else "No locations found matching your query.")
    else
      log WARNING ("Unexpected response format from API for query: " ++ query) ;;
      ret "Unexpected response format from the API.".

Definition search_locations (query : string) : M string :=
  log INFO ("Searching for locations with query: " ++ query) ;;
  let endpoint := "/api/v1/restaurant/searchLocation" in
  let params := [("query", query)] in
  result <- call_rapidapi_request endpoint (Some params) ;;
  search_locations_reply query result.

(** The body of the loop of [get_restaurants]: the seven lines of one
    entry, then the same text once more after [Room: ]. *)
Definition restaurant_info (restaurant : value) : M string :=
  name <- py_get restaurant "name" (VStr "Unknown") ;;
  rating <- py_get restaurant "averageRating" (VStr "Unknown") ;;
  reviews <- py_get restaurant "userReviewCount" (VStr "Unknown") ;;
  menu <- py_get restaurant "menuUrl" (VStr "Unknown") ;;
  geo <- py_get restaurant "parentGeoName" (VStr "Unknown") ;;
  status <- py_get restaurant "currentOpenStatusCategory" (VStr "Unknown") ;;
  premium <- py_get restaurant "isPremium" (VStr "Unknown") ;;
  let restaurant_info :=
    "Name: " ++ py_str name ++ nl
    ++ "Average Rating: " ++ py_str rating ++ nl
    ++ "User Review Count: " ++ py_str reviews ++ nl
    ++ "Menu Url: " ++ py_str menu ++ nl
    ++ "City Name GeoName: " ++ py_str geo ++ nl
    ++ "Status: " ++ py_str status ++ nl
    ++ "Premium: " ++ py_str premium ++ nl in
  let restaurant_info := restaurant_info ++ ("Room: " ++ restaurant_info ++ nl) in
  ret restaurant_info.

(** [get_restaurants] from the gateway result on (lines 107 to 138). *)
Definition get_restaurants_reply (location_id : string) (result : value) : M string :=
  has_error <- py_contains "error" result ;;
  if (has_error : bool) then
    err <- py_getitem result "error" ;;
    log ERROR ("Error in get_restaurants: " ++ py_str err) ;;
    err <- py_getitem result "error" ;;
    ret ("Error fetching restaurants: " ++ py_str err)
  else
    let results : list string := [] in
    has_data <- py_contains "data" result ;;
    has_nested <- (if (has_data : bool)
                   then outer <- py_getitem result "data" ;; py_contains "data" outer
                   else ret false) ;;
    is_list <- (if (has_nested : bool)
                then outer <- py_getitem result "data" ;;
                     inner <- py_getitem outer "data" ;;
                     ret (isinstance_list inner)
                else ret false) ;;
    if (is_list : bool) then
      outer <- py_getitem result "data" ;;
      inner <- py_getitem outer "data" ;;
      restaurants_count <- py_len inner ;;
      log INFO ("Found " ++ str_of_nat restaurants_count
                  ++ " restaurants for location: " ++ location_id) ;;
      outer <- py_getitem result "data" ;;
      restaurants <- py_getitem outer "data" ;;
      first <- py_slice_to 10 restaurants ;;
      shown <- py_iter first ;;
      results <- for_each shown
                   (fun results restaurant =>
                      info <- restaurant_info restaurant ;;
                      ret (results ++ [info])%list)
                   results ;;
      ret (if truthy results
           then String.concat sep results
           else "No Restaurants found for this location and dates.")
    else
      log WARNING ("Unexpected response format from API for location: " ++ location_id) ;;
      ret "Unexpected response format from the API.".

Definition get_restaurants (location_id : string) : M string :=
  log INFO ("Getting restaurants for location_id: " ++ location_id) ;;
  let endpoint := "/api/v1/restaurant/searchRestaurants" in
  let params := [("locationId", location_id)] in
  result <- call_rapidapi_request endpoint (Some params) ;;
  get_restaurants_reply location_id result.

(** *** The ways the GET can go *)

(** What one call of the gateway meets: the opening of the client, the
    reply to the GET, the closing of the client. *)
Record exchange := {
  opened : outcome unit;
  reply : outcome response;
  closed : outcome unit
}.

(** What the network does with the request the gateway sends. *)
Definition sent (endpoint : string) (params : option (list (string * string)))
  : exchange :=
  {| opened := client_open env;
     reply := http_get env ("https://" ++ HOST env ++ endpoint)
                [("X-RapidAPI-Key", KEY env); ("X-RapidAPI-Host", HOST env)]
                params 30;
     closed := client_close env |}.

(** The client opens and closes, and the GET goes the way [o]. *)
Definition answered (x : exchange) (o : outcome response) : Prop :=
  opened x = Return tt /\ reply x = o /\ closed x = Return tt.

(** Success: a 2xx answer whose body decodes to [body]. *)
Definition succeeds endpoint params (body : value) : Prop :=
  exists r, answered (sent endpoint params) (Return r)
            /\ is_success r = true /\ json r = Return body.

(** Failure with the message [msg]. *)
Inductive fails endpoint params (msg : string) : Prop :=
| transport_failure e :
    answered (sent endpoint params) (Raise e) -> exn_str e = msg ->
    fails endpoint params msg
| bad_status r :
    answered (sent endpoint params) (Return r) -> is_success r = false ->
    status_error r = msg ->
    fails endpoint params msg
| decode_failure r e :
    answered (sent endpoint params) (Return r) -> is_success r = true ->
    json r = Raise e -> exn_str e = msg ->
    fails endpoint params msg.

(** The error marker. *)
Definition error_value (msg : string) : value := VDict [("error", VStr msg)].

(** What the [try] statement is to yield for a reply to the GET. *)
Definition handled (o : outcome response) : outcome value :=
  match o with
  | Raise e => Return (error_value (exn_str e))
  | Escape b => Escape b
  | Return r =>
      if is_success r
      then match json r with
           | Return body => Return body
           | Raise e => Return (error_value (exn_str e))
           | Escape b => Escape b
           end
      else Return (error_value (status_error r))
  end.

(** What the gateway is to yield for an exchange. *)
Definition gateway_outcome (x : exchange) : outcome value :=
  match opened x with
  | Return _ =>
      match closed x with
      | Return _ => handled (reply x)
      | Raise e => Raise e
      | Escape b => Escape b
      end
  | Raise e => Raise e
  | Escape b => Escape b
  end.

End Server.

(** ** The texts the tools are to produce *)

Section Texts.
Context {py : Interpreter}.

(** A field of an entry as it is to appear: its value formatted, or the
    placeholder when the entry has no such field. *)
Definition field_text (d : dict) (key placeholder : string) : string :=
  match dict_lookup key d with
  | Some v => py_str v
  | None => placeholder
  end.

(** The four lines of a location. *)
Definition location_block (d : dict) : string :=
  "Name: " ++ field_text d "localizedName" "Unknown" ++ nl
  ++ "Location Id: " ++ field_text d "locationId" "Unknown" ++ nl
  ++ "Coordinates: " ++ field_text d "latitude" "N/A" ++ ", "
                     ++ field_text d "longitude" "N/A" ++ nl
  ++ "PlaceType: " ++ field_text d "placeType" "Unknown" ++ nl.

(** The seven lines of a restaurant. *)
Definition restaurant_lines (d : dict) : string :=
  "Name: " ++ field_text d "name" "Unknown" ++ nl
  ++ "Average Rating: " ++ field_text d "averageRating" "Unknown" ++ nl
  ++ "User Review Count: " ++ field_text d "userReviewCount" "Unknown" ++ nl
  ++ "Menu Url: " ++ field_text d "menuUrl" "Unknown" ++ nl
  ++ "City Name GeoName: " ++ field_text d "parentGeoName" "Unknown" ++ nl
  ++ "Status: " ++ field_text d "currentOpenStatusCategory" "Unknown" ++ nl
  ++ "Premium: " ++ field_text d "isPremium" "Unknown" ++ nl.

(** The block [get_restaurants] appends for a restaurant. *)
Definition restaurant_block (d : dict) : string :=
  restaurant_lines d ++ "Room: " ++ restaurant_lines d ++ nl.

End Texts.

(** The number of line ends in a text. *)
Fixpoint newlines (s : string) : nat :=
  match s with
  | EmptyString => 0
  | String c rest => (if Ascii.eqb c (ascii_of_nat 10) then 1 else 0) + newlines rest
  end.

Definition is_object (v : value) : bool :=
  match v with
  | VDict _ => true
  | _ => false
  end.

(** [None], a boolean or a number: a value [in] does not accept. *)
Definition is_scalar (v : value) : bool :=
  match v with
  | VNone | VBool _ | VInt _ | VFloat _ => true
  | _ => false
  end.

Definition locations_endpoint : string := "/api/v1/restaurant/searchLocation".
Definition restaurants_endpoint : string := "/api/v1/restaurant/searchRestaurants".

(** ** A concrete interpreter and upstream, for worked examples *)

(** [repr] of strings and of floats as CPython computes them.  A string
    is its UTF-8 bytes; its characters beyond ASCII are taken to be
    printable, so that they are kept as they are. *)
Module CPython.

Definition backslash : ascii := ascii_of_nat 92.
Definition single_quote : ascii := ascii_of_nat 39.
Definition double_quote : ascii := ascii_of_nat 34.

Fixpoint occurs (c : ascii) (s : string) : bool :=
  match s with
  | EmptyString => false
  | String x rest => Ascii.eqb x c || occurs c rest
  end.

Definition hex_digit (n : nat) : ascii :=
  nth n (list_ascii_of_string "0123456789abcdef") "0"%char.

Definition escaped (quote c : ascii) : string :=
  let n := nat_of_ascii c in
  if Ascii.eqb c backslash then String backslash (String backslash EmptyString)
  else if Ascii.eqb c quote then String backslash (String c EmptyString)
  else if Nat.eqb n 9 then String backslash "t"
  else if Nat.eqb n 10 then String backslash "n"
  else if Nat.eqb n 13 then String backslash "r"
  else if Nat.ltb n 32 || Nat.eqb n 127
       then String backslash
              (String "x" (String (hex_digit (n / 16))
                             (String (hex_digit (n mod 16)) EmptyString)))
  else String c EmptyString.

Fixpoint escape (quote : ascii) (s : string) : string :=
  match s with
  | EmptyString => EmptyString
  | String c rest => escaped quote c ++ escape quote rest
  end.

Definition repr_of_str (s : string) : string :=
  let quote := if occurs single_quote s && negb (occurs double_quote s)
               then double_quote else single_quote in
  String quote (escape quote s ++ String quote EmptyString).

(** Positive rationals as a numerator over a positive denominator. *)
Definition ratio : Type := Z * Z.

Definition times_pow (base n k : Z) : ratio :=
  if (0 <=? k)%Z then (n * base ^ k, 1)%Z else (n, base ^ (- k))%Z.

Definition rle (x y : ratio) : bool := (fst x * snd y <=? fst y * snd x)%Z.
Definition rlt (x y : ratio) : bool := (fst x * snd y <? fst y * snd x)%Z.

(** The mantissa with 53 bits, or the exponent -1074 of a subnormal. *)
Definition canonical (m e : Z) : Z * Z :=
  let room := Z.min (53 - (Z.log2 m + 1)) (e + 1074) in
  if (0 <? room)%Z then (m * 2 ^ room, e - room)%Z else (m, e).

Fixpoint lower (fuel : nat) (v : ratio) (p : Z) : Z :=
  match fuel with
  | O => p
  | S fuel' => if rle (times_pow 10 1 p) v then p else lower fuel' v (p - 1)
  end.

Fixpoint raise_to (fuel : nat) (v : ratio) (p : Z) : Z :=
  match fuel with
  | O => p
  | S fuel' => if rle (times_pow 10 1 (p + 1)) v then raise_to fuel' v (p + 1) else p
  end.

(** The [p] with [10^p <= v < 10^(p+1)]. *)
Definition floor_log10 (v : ratio) : Z :=
  let guess := ((Z.log2 (fst v) - Z.log2 (snd v)) * 30103 / 100000)%Z in
  raise_to 8 v (lower 8 v guess).

(** The shortest decimal [d * 10^k] that reads back as [m * 2^e]. *)
Fixpoint shortest (fuel : nat) (n : Z) (m e p : Z) : Z * Z :=
  let v := times_pow 2 (4 * m) (e - 2) in
  let hi := times_pow 2 (4 * m + 2) (e - 2) in
  let lo := if (m =? 2 ^ 52)%Z && (-1074 <? e)%Z
            then times_pow 2 (4 * m - 1) (e - 2)
            else times_pow 2 (4 * m - 2) (e - 2) in
  let inside x := if Z.even m then rle lo x && rle x hi else rlt lo x && rlt x hi in
  let k := (p - n + 1)%Z in
  let unit := times_pow 10 1 k in
  let d := ((fst v * snd unit) / (snd v * fst unit))%Z in
  let below := times_pow 10 d k in
  let above := times_pow 10 (d + 1) k in
  let nearer_below := rle (times_pow 2 (8 * m) (e - 2)) (times_pow 10 (2 * d + 1) k) in
  match fuel with
  | O => (d, k)
  | S fuel' =>
      if inside below && inside above then (if nearer_below then (d, k) else (d + 1, k)%Z)
      else if inside below then (d, k)
      else if inside above then ((d + 1)%Z, k)
      else shortest fuel' (n + 1)%Z m e p
  end.

Fixpoint strip (fuel : nat) (d k : Z) : Z * Z :=
  match fuel with
  | O => (d, k)
  | S fuel' => if (d mod 10 =? 0)%Z then strip fuel' (d / 10)%Z (k + 1)%Z else (d, k)
  end.

Fixpoint zeros (n : nat) : string :=
  match n with
  | O => EmptyString
  | S n' => String "0" (zeros n')
  end.

Definition two_digits (n : Z) : string :=
  if (n <? 10)%Z then String "0" (str_of_Z n) else str_of_Z n.

Definition layout (digits : string) (decpt : Z) : string :=
  let n := Z.of_nat (String.length digits) in
  if (decpt <=? -4)%Z || (16 <? decpt)%Z then
    let exponent := (decpt - 1)%Z in
    substring 0 1 digits
    ++ (if (1 <? n)%Z then "." ++ substring 1 (String.length digits - 1) digits else "")
    ++ "e" ++ (if (exponent <? 0)%Z then "-" else "+") ++ two_digits (Z.abs exponent)
  else if (decpt <=? 0)%Z then "0." ++ zeros (Z.to_nat (- decpt)) ++ digits
  else if (n <=? decpt)%Z then digits ++ zeros (Z.to_nat (decpt - n)) ++ ".0"
  else substring 0 (Z.to_nat decpt) digits ++ "."
       ++ substring (Z.to_nat decpt) (String.length digits - Z.to_nat decpt) digits.

Definition repr_of_float (f : spec_float) : string :=
  match f with
  | S754_zero false => "0.0"
  | S754_zero true => "-0.0"
  | S754_infinity false => "inf"
  | S754_infinity true => "-inf"
  | S754_nan => "nan"
  | S754_finite sign m e =>
      let '(m', e') := canonical (Zpos m) e in
      let p := floor_log10 (times_pow 2 m' e') in
      let '(d, k) := shortest 17 1 m' e' p in
      let '(d', k') := strip 20 d k in
      let digits := str_of_Z d' in
      (if sign then "-" else "")
      ++ layout digits (k' + Z.of_nat (String.length digits))
  end.

End CPython.

Definition ascii_interpreter : Interpreter := {|
  float_repr := CPython.repr_of_float;
  str_repr := CPython.repr_of_str
|}.

(** An upstream that answers every request with [code] and a body that
    decodes to [body]. *)
Definition answering (code : Z) (body : value) : environment := {|
  KEY := "secret";
  HOST := "booking-com15.p.rapidapi.com";
  client_open := Return tt;
  http_get := fun _ _ _ _ =>
    Return {| status_code := code;
              status_error := "Client error '" ++ str_of_Z code ++ "'";
              json := Return body |};
  client_close := Return tt
|}.

(** An upstream that cannot be reached. *)
Definition unreachable (msg : string) : environment := {|
  KEY := "secret";
  HOST := "booking-com15.p.rapidapi.com";
  client_open := Return tt;
  http_get := fun _ _ _ _ => Raise (Exn TransportError msg);
  client_close := Return tt
|}.

(** A call that is cancelled while it awaits the answer. *)
Definition cancelled : environment := {|
  KEY := "secret";
  HOST := "booking-com15.p.rapidapi.com";
  client_open := Return tt;
  http_get := fun _ _ _ _ => Escape CancelledError;
  client_close := Return tt
|}.

(** An installation in which the client cannot be built. *)
Definition no_client (msg : string) : environment := {|
  KEY := "secret";
  HOST := "booking-com15.p.rapidapi.com";
  client_open := Raise (Exn ImportError msg);
  http_get := fun _ _ _ _ => Raise (Exn TransportError "not reached");
  client_close := Return tt
|}.

(** An upstream whose 200 answer is not JSON. *)
Definition garbled (msg : string) : environment := {|
  KEY := "secret";
  HOST := "booking-com15.p.rapidapi.com";
  client_open := Return tt;
  http_get := fun _ _ _ _ =>
    Return {| status_code := 200;
              status_error := "";
              json := Raise (Exn JSONDecodeError msg) |};
  client_close := Return tt
|}.

(** Answers used in the worked examples. *)

Definition paris_entries : list dict :=
  [ [("localizedName", VStr "Paris"); ("locationId", VInt 187147);
     ("latitude", VStr "48.857037"); ("longitude", VStr "2.349401");
     ("placeType", VStr "CITY")];
    [("localizedName", VStr "Paris"); ("locationId", VInt 56432);
     ("latitude", VStr "33.66124"); ("placeType", VStr "CITY")] ].

Definition paris_reply : dict :=
  [("status", VBool true); ("data", VList (map VDict paris_entries))].

Definition twelve_entries : list dict :=
  map (fun n => [("name", VStr ("Bistro " ++ str_of_nat n)); ("isPremium", VBool false)])
      (seq 1 12).

Definition twelve_reply : dict :=
  [("status", VBool true);
   ("data", VDict [("totalRecords", VInt 12);
                   ("data", VList (map VDict twelve_entries))])].

Definition null_data_reply : dict :=
  [("status", VBool false); ("message", VStr "not found"); ("data", VNone)].

Definition quota_empty_reply : dict :=
  [("error", VStr "quota exceeded"); ("data", VList [])].

Definition quota_mixed_reply : dict :=
  [("error", VStr "quota exceeded"); ("data", VList [VInt 5])].

Definition mixed_reply : dict :=
  [("data", VList [VDict [("localizedName", VStr "Paris")]; VStr "Paris"])].

Definition empty_reply : dict := [("status", VBool true); ("data", VList [])].

Definition empty_nested_reply : dict :=
  [("status", VBool true); ("data", VDict [("data", VList [])])].

Definition bare_reply : dict := [("data", VList [VDict []])].

Definition bistro : dict :=
  [("name", VStr "Chez Nous"); ("averageRating", VInt 4);
   ("userReviewCount", VInt 212); ("parentGeoName", VStr "Paris");
   ("currentOpenStatusCategory", VStr "OPEN"); ("isPremium", VBool false)].

Definition bistro_reply : dict :=
  [("status", VBool true); ("data", VDict [("data", VList [VDict bistro])])].

Definition paris_query : option (list (string * string)) := Some [("query", "Paris")].
Definition id_query : option (list (string * string)) := Some [("locationId", "123")].

(** ** The process: configuration, signals and [main] *)

Module Proc.

(** What unwinds the process: an exception deriving from [Exception], or
    the [SystemExit] that [sys.exit] raises, which [except Exception] lets
    pass. *)
Inductive thrown :=
| Exception (e : exn)
| SystemExit (code : Z).

Inductive ending (A : Type) : Type :=
| Done (a : A)
| Thrown (t : thrown).
Arguments Done {A} a.
Arguments Thrown {A} t.

Definition P (A : Type) : Type := list log_record -> list log_record * ending A.

Definition pret {A} (a : A) : P A := fun l => (l, Done a).

Definition pbind {A B} (m : P A) (k : A -> P B) : P B :=
  fun l =>
    match m l with
    | (l', Done a) => k a l'
    | (l', Thrown t) => (l', Thrown t)
    end.

Definition plog (lv : level) (msg : string) : P unit :=
  fun l => ((l ++ [(lv, msg)])%list, Done tt).

(** [sys.exit(code)] *)
Definition sys_exit {A} (code : Z) : P A := fun l => (l, Thrown (SystemExit code)).

(** [try: body  except Exception as e: handler(e)  finally: final]: the
    handler takes an [Exception] only; [final] runs on every way out and,
    when it ends normally, leaves the pending return or exception as it
    is. *)
Definition try_except_finally {A}
    (body : P A) (handler : exn -> P A) (final : P unit) : P A :=
  fun l =>
    let after :=
      match body l with
      | (l', Thrown (Exception e)) => handler e l'
      | other => other
      end in
    match final (fst after) with
    | (l'', Done _) => (l'', snd after)
    | (l'', Thrown t) => (l'', Thrown t)
    end.

(** The exit status the interpreter gives the process when the script
    ends this way. *)
Definition exit_status {A} (e : ending A) : Z :=
  match e with
  | Done _ => 0
  | Thrown (SystemExit code) => code
  | Thrown (Exception _) => 1
  end.

End Proc.
Export Proc.

Declare Scope proc_scope.
Delimit Scope proc_scope with proc.
Notation "x <- m ;; k" := (pbind m (fun x => k))
  (at level 61, m at next level, right associativity) : proc_scope.
Notation "m ;; k" := (pbind m (fun _ => k))
  (at level 61, right associativity) : proc_scope.

(** The variables of the process environment: [os.environ]. *)
Definition environ : Type := string -> option string.

(** [load_dotenv()]: the variables of the [.env] file are added to the
    environment; a variable that is already set keeps its value. *)
Definition load_dotenv (dotenv env : environ) : environ :=
  fun name =>
    match env name with
    | Some v => Some v
    | None => dotenv name
    end.

(** [os.getenv(name)] and [os.getenv(name, default)] *)
Definition getenv (env : environ) (name : string) : option string := env name.

Definition getenv_default (env : environ) (name default : string) : string :=
  match env name with
  | Some v => v
  | None => default
  end.

(** [not KEY] for [KEY] that is [None] or a string. *)
Definition falsy (o : option string) : bool :=
  match o with
  | None => true
  | Some s => String.eqb s ""
  end.

Definition default_host : string := "booking-com15.p.rapidapi.com".

(** The module body, lines 27 to 33: read [KEY] and [HOST], and leave with
    status 1 when there is no key.  It yields the two constants. *)
Definition configure (env : environ) : P (string * string) :=
  (let KEY := getenv env "KEY" in
   let HOST := getenv_default env "HOST" "booking-com15.p.rapidapi.com" in
   if falsy KEY then
     plog ERROR "KEY environment variable is not set. Please create a .env file with your API key." ;;
     sys_exit 1
   else
     pret (match KEY with Some k => k | None => "" end, HOST))%proc.

(** The server as the tools see it, once configured, with a client that
    opens and closes. *)
Definition deployed (constants : string * string)
    (net : string -> list (string * string) ->
           option (list (string * string)) -> Z -> outcome response)
  : environment :=
  {| KEY := fst constants; HOST := snd constants;
     client_open := Return tt; http_get := net; client_close := Return tt |}.

(** The signals [main] installs a handler for. *)
Inductive signal := SIGINT | SIGTERM.

Definition signum (s : signal) : Z :=
  match s with
  | SIGINT => 2
  | SIGTERM => 15
  end.

Definition handle_shutdown (signum : Z) (frame : unit) : P unit :=
  (plog INFO "Received shutdown signal, shutting down gracefully..." ;;
   sys_exit 0)%proc.

(** How [mcp.run(transport='stdio')] ends: the stream is closed and the
    call returns, the loop raises, or a handled signal arrives. *)
Inductive stop :=
| Closed
| Failed (e : exn)
| Signalled (s : signal).

(** One run of the serving loop: the records written while it served, and
    how it ended. *)
Record serving := {
  written : list log_record;
  stopped : stop
}.

(** [mcp.run] with [handler] installed for the signals: a signal runs the
    handler inside the call, and what the handler raises comes out of it. *)
Definition mcp_run (handler : Z -> unit -> P unit) (s : serving) : P unit :=
  fun l =>
    match stopped s with
    | Closed => ((l ++ written s)%list, Done tt)
    | Failed e => ((l ++ written s)%list, Thrown (Exception e))
    | Signalled sg => handler (signum sg) tt (l ++ written s)%list
    end.

Section Main.

(** [parser.parse_args()] of a parser without arguments of its own:
    [None] when the command line is accepted, the status argparse exits
    with otherwise. *)
Variable parse_args : list string -> option Z.

Definition main (argv : list string) (s : serving) : P Z :=
  (_ <- (match parse_args argv with
         | None => pret tt
         | Some code => sys_exit code
         end) ;;
   let handler := handle_shutdown in
   try_except_finally
     (plog INFO "Starting Restaurants MCP Server with stdio transport..." ;;
      mcp_run handler s ;;
      pret 0%Z)
     (fun e =>
        plog ERROR ("Error starting server: " ++ exn_str e) ;;
        pret 1%Z)
     (plog INFO "Restaurants MCP Server shutting down..."))%proc.

(** The file run as a script: the module body, then [sys.exit(main())]. *)
Definition script (dotenv env : environ) (argv : list string) (s : serving)
  : P unit :=
  (_ <- configure (load_dotenv dotenv env) ;;
   code <- main argv s ;;
   sys_exit code)%proc.

End Main.

(** *** What the process is to do *)

(** The status the script is to end with. *)
Definition expected_status (key : option string) (args : option Z) (s : stop) : Z :=
  if falsy key then 1
  else match args with
       | Some code => code
       | None =>
           match s with
           | Closed => 0
           | Failed _ => 1
           | Signalled _ => 0
           end
       end.

(** The record [main] writes for the way the serving loop ended. *)
Definition stop_records (s : stop) : list log_record :=
  match s with
  | Closed => []
  | Failed e => [(ERROR, "Error starting server: " ++ exn_str e)]
  | Signalled _ => [(INFO, "Received shutdown signal, shutting down gracefully...")]
  end.

Definition main_ending (s : stop) : ending Z :=
  match s with
  | Closed => Done 0%Z
  | Failed _ => Done 1%Z
  | Signalled _ => Thrown (SystemExit 0)
  end.

(** *** What the gateway is to log *)

Section GatewayLog.
Context {py : Interpreter}.

(** The records of one gateway call, by what it meets. *)
Definition gateway_records (endpoint : string)
    (params : option (list (string * string))) (x : exchange)
  : list log_record :=
  (INFO, "Calling API request to " ++ endpoint ++ " with params: "
           ++ py_str (params_value params))
  :: match opened x with
     | Return _ =>
         match reply x with
         | Raise e => [(ERROR, "API request to " ++ endpoint ++ " failed: " ++ exn_str e)]
         | Escape _ => []
         | Return r =>
             if is_success r
             then (INFO, "API request to " ++ endpoint ++ " successful")
                  :: match json r with
                     | Raise e =>
                         [(ERROR, "API request to " ++ endpoint ++ " failed: "
                                    ++ exn_str e)]
                     | _ => []
                     end
             else [(ERROR, "API request to " ++ endpoint ++ " failed: "
                             ++ status_error r)]
         end
     | _ => []
     end.

(** Every field of a location is shown on one line. *)
Definition single_line_location (o : dict) : Prop :=
  newlines (field_text o "localizedName" "Unknown") = 0
  /\ newlines (field_text o "locationId" "Unknown") = 0
  /\ newlines (field_text o "latitude" "N/A") = 0
  /\ newlines (field_text o "longitude" "N/A") = 0
  /\ newlines (field_text o "placeType" "Unknown") = 0.

(** Every field of a restaurant is shown on one line. *)
Definition single_line_restaurant (o : dict) : Prop :=
  newlines (field_text o "name" "Unknown") = 0
  /\ newlines (field_text o "averageRating" "Unknown") = 0
  /\ newlines (field_text o "userReviewCount" "Unknown") = 0
  /\ newlines (field_text o "menuUrl" "Unknown") = 0
  /\ newlines (field_text o "parentGeoName" "Unknown") = 0
  /\ newlines (field_text o "currentOpenStatusCategory" "Unknown") = 0
  /\ newlines (field_text o "isPremium" "Unknown") = 0.

End GatewayLog.

(** A computation raises no exception outside [classes]. *)
Definition raises_at_most {A} (m : M A) (classes : list exn_class) : Prop :=
  forall l,
    match result_of m l with
    | Return _ => True
    | Raise e => In (exn_cls e) classes
    | Escape _ => False
    end.

(** [key] occurs in a list or string as [in] finds it. *)
Definition mentions (key : string) (v : value) : bool :=
  match v with
  | VList items => existsb (is_str key) items
  | VStr s => str_contains key s
  | _ => false
  end.

Definition is_sequence (v : value) : bool :=
  match v with
  | VList _ | VStr _ => true
  | _ => false
  end.

(** A command line check for the examples: no argument is accepted, a
    help flag exits with 0, anything else with 2. *)
Definition no_arguments (argv : list string) : option Z :=
  match argv with
  | [] => None
  | ["-h"] | ["--help"] => Some 0%Z
  | _ => Some 2%Z
  end.

Definition with_key : environ :=
  fun name => if String.eqb name "KEY" then Some "secret" else None.

Definition without_key : environ := fun _ => None.

Definition empty_key : environ :=
  fun name => if String.eqb name "KEY" then Some "" else None.

Definition dotenv_key : environ :=
  fun name =>
    if String.eqb name "KEY" then Some "from-file"
    else if String.eqb name "HOST" then Some "example.test"
    else None.

(** A second server with another key and host whose network gives the
    same answer. *)
Definition mirror (body : value) : environment := {|
  KEY := "another secret";
  HOST := "mirror.example";
  client_open := Return tt;
  http_get := fun _ _ _ _ =>
    Return {| status_code := 200;
              status_error := "Client error '" ++ str_of_Z 200 ++ "'";
              json := Return body |};
  client_close := Return tt
|}.

Definition three_reply : dict :=
  [("data", VDict [("data", VList (map VDict (firstn 3 twelve_entries)))])].

Definition ten_and_more_reply : dict :=
  [("data", VDict [("data", VList (map VDict (firstn 10 twelve_entries)
                                     ++ [VInt 0; VNone]))])].

Definition crashed : serving :=
  {| written := []; stopped := Failed (Exn TypeError "unsupported transport") |}.

(** A network that answers one request only: the GET of [url] with the
    key and the host in the two headers and a timeout of 30. *)
Definition only_at (url key host : string) (body : value)
  : string -> list (string * string) ->
    option (list (string * string)) -> Z -> outcome response :=
  fun u headers _ timeout =>
    match headers with
    | [(n1, v1); (n2, v2)] =>
        if String.eqb u url && String.eqb n1 "X-RapidAPI-Key" && String.eqb v1 key
           && String.eqb n2 "X-RapidAPI-Host" && String.eqb v2 host
           && Z.eqb timeout 30
        then Return {| status_code := 200; status_error := ""; json := Return body |}
        else Raise (Exn TransportError "another request")
    | _ => Raise (Exn TransportError "another request")
    end.

Definition two_calls : list log_record :=
  [(INFO, "Searching for locations with query: Paris");
   (INFO, "Getting restaurants for location_id: 123")].

(** ** Running computations *)

Section Running.
Context {A B : Type}.

Lemma bind_ret (a : A) (k : A -> M B) : bind (ret a) k = k a.
Proof. reflexivity. Qed.

Lemma run_bind (m : M A) (k : A -> M B) l l' a :
  m l = (l', Return a) -> bind m k l = k a l'.
Proof. intros H. unfold bind. now rewrite H. Qed.

Lemma run_bind_raise (m : M A) (k : A -> M B) l l' e :
  m l = (l', Raise e) -> bind m k l = (l', Raise e).
Proof. intros H. unfold bind. now rewrite H. Qed.

Lemma returns_bind (m : M A) (k : A -> M B) a b :
  returns m a -> returns (k a) b -> returns (bind m k) b.
Proof.
  intros Hm Hk l. specialize (Hm l). unfold result_of, bind in *.
  destruct (m l) as [l' o]. simpl in Hm. subst o. apply Hk.
Qed.

Lemma raises_bind (m : M A) (k : A -> M B) a c :
  returns m a -> raises (k a) c -> raises (bind m k) c.
Proof.
  intros Hm Hk l. specialize (Hm l). unfold result_of, bind in *.
  destruct (m l) as [l' o]. simpl in Hm. subst o. apply Hk.
Qed.

End Running.

Lemma bind_raise {A B} c msg (k : A -> M B) : bind (raise c msg) k = raise c msg.
Proof. reflexivity. Qed.

Lemma bind_log {B} lv msg (k : unit -> M B) l :
  bind (log lv msg) k l = k tt (l ++ [(lv, msg)])%list.
Proof. reflexivity. Qed.

Lemma returns_log lv msg : returns (log lv msg) tt.
Proof. intros l. reflexivity. Qed.

Lemma returns_inj {A} (m : M A) a b : returns m a -> returns m b -> a = b.
Proof.
  intros Ha Hb. specialize (Ha []). specialize (Hb []). congruence.
Qed.

Lemma returns_not_raises {A} (m : M A) a c : returns m a -> ~ raises m c.
Proof.
  intros Ha Hr. specialize (Ha []). destruct (Hr []) as [msg Hm]. congruence.
Qed.

(** ** The loop over entries *)

Section Loops.
Context {py : Interpreter}.

Lemma py_get_object d key default l :
  py_get (VDict d) key default l =
  (l, Return (match dict_lookup key d with Some v => v | None => default end)).
Proof. unfold py_get. now destruct (dict_lookup key d). Qed.

Lemma field_text_get d key placeholder :
  py_str (match dict_lookup key d with Some v => v | None => VStr placeholder end)
  = field_text d key placeholder.
Proof. unfold field_text. now destruct (dict_lookup key d). Qed.

Lemma location_info_object d l :
  location_info (VDict d) l = (l, Return (location_block d)).
Proof.
  unfold location_info.
  repeat (erewrite run_bind by apply py_get_object).
  unfold ret, location_block. now rewrite !field_text_get.
Qed.

Lemma restaurant_info_object d l :
  restaurant_info (VDict d) l = (l, Return (restaurant_block d)).
Proof.
  unfold restaurant_info.
  repeat (erewrite run_bind by apply py_get_object).
  unfold ret, restaurant_block, restaurant_lines. now rewrite !field_text_get.
Qed.

Lemma location_info_other v l :
  is_object v = false ->
  exists msg, location_info v l = (l, Raise (Exn AttributeError msg)).
Proof. destruct v; intros H; try discriminate; eexists; reflexivity. Qed.

Lemma restaurant_info_other v l :
  is_object v = false ->
  exists msg, restaurant_info v l = (l, Raise (Exn AttributeError msg)).
Proof. destruct v; intros H; try discriminate; eexists; reflexivity. Qed.

(** A loop whose body appends [f d] for an object [d] and raises
    [AttributeError] for anything else. *)
Section Append.
Variable info : value -> M string.
Variable f : dict -> string.
Hypothesis info_object : forall d l, info (VDict d) l = (l, Return (f d)).
Hypothesis info_other : forall v l,
  is_object v = false -> exists msg, info v l = (l, Raise (Exn AttributeError msg)).

Let body (results : list string) (x : value) : M (list string) :=
  r <- info x ;; ret (results ++ [r])%list.

Lemma for_each_objects ds : forall acc l,
  for_each (map VDict ds) body acc l = (l, Return (acc ++ map f ds)%list).
Proof.
  induction ds as [|d ds IH]; intros acc l; simpl.
  - unfold ret. now rewrite app_nil_r.
  - unfold body at 1. erewrite run_bind by (erewrite run_bind by apply info_object; reflexivity).
    rewrite IH. now rewrite <- app_assoc.
Qed.

Lemma for_each_other xs : forall acc l,
  forallb is_object xs = false ->
  exists msg, for_each xs body acc l = (l, Raise (Exn AttributeError msg)).
Proof.
  induction xs as [|x xs IH]; intros acc l H; simpl in *; [discriminate|].
  destruct (is_object x) eqn:Hx; simpl in H.
  - destruct x; try discriminate.
    unfold body at 1.
    erewrite run_bind by (erewrite run_bind by apply info_object; reflexivity).
    now apply IH.
  - destruct (info_other x l Hx) as [msg Hm]. exists msg.
    apply run_bind_raise. unfold body. now apply run_bind_raise.
Qed.

End Append.

End Loops.

(** ** The tools on a gateway result *)

Section Replies.
Context {py : Interpreter}.

Ltac steps :=
  repeat first
    [ rewrite bind_ret | rewrite bind_raise | rewrite bind_log
    | progress (cbn [isinstance_list py_len py_iter py_slice_to]) ].

Ltac reply_with Herr :=
  intros l;
  unfold result_of, search_locations_reply, get_restaurants_reply,
         py_contains, py_getitem;
  rewrite ?Herr; steps.

Lemma search_locations_reply_error query d v :
  dict_lookup "error" d = Some v ->
  returns (search_locations_reply query (VDict d))
          ("Error fetching locations: " ++ py_str v).
Proof. intros Herr. reply_with Herr. reflexivity. Qed.

Lemma get_restaurants_reply_error location_id d v :
  dict_lookup "error" d = Some v ->
  returns (get_restaurants_reply location_id (VDict d))
          ("Error fetching restaurants: " ++ py_str v).
Proof. intros Herr. reply_with Herr. reflexivity. Qed.

Lemma search_locations_reply_objects query d ds :
  dict_lookup "error" d = None ->
  dict_lookup "data" d = Some (VList (map VDict ds)) ->
  returns (search_locations_reply query (VDict d))
          (if truthy ds
           then String.concat sep (map location_block ds)
           else "No locations found matching your query.").
Proof.
  intros Herr Hdata. reply_with Herr. rewrite Hdata. steps.
  erewrite run_bind
    by apply (for_each_objects location_info location_block location_info_object).
  simpl. now destruct ds.
Qed.

Lemma search_locations_reply_other query d items :
  dict_lookup "error" d = None ->
  dict_lookup "data" d = Some (VList items) ->
  forallb is_object items = false ->
  raises (search_locations_reply query (VDict d)) AttributeError.
Proof.
  intros Herr Hdata Hitems. reply_with Herr. rewrite Hdata. steps.
  match goal with
  | |- context [bind (for_each _ _ _) _ ?L] =>
      destruct (for_each_other location_info location_block location_info_object
                  location_info_other items [] L Hitems) as [msg Hm]
  end.
  exists msg. erewrite run_bind_raise by exact Hm. reflexivity.
Qed.

Lemma search_locations_reply_unexpected query d :
  dict_lookup "error" d = None ->
  (forall items, dict_lookup "data" d <> Some (VList items)) ->
  returns (search_locations_reply query (VDict d))
          "Unexpected response format from the API.".
Proof.
  intros Herr Hdata. reply_with Herr.
  destruct (dict_lookup "data" d) as [v|] eqn:E; steps; [|reflexivity].
  destruct v; steps; try reflexivity.
  now elim (Hdata items).
Qed.

Lemma get_restaurants_reply_objects location_id d outer items ds :
  dict_lookup "error" d = None ->
  dict_lookup "data" d = Some (VDict outer) ->
  dict_lookup "data" outer = Some (VList items) ->
  firstn 10 items = map VDict ds ->
  returns (get_restaurants_reply location_id (VDict d))
          (if truthy ds
           then String.concat sep (map restaurant_block ds)
           else "No Restaurants found for this location and dates.").
Proof.
  intros Herr Hdata Hnested Hfirst. reply_with Herr. rewrite Hdata. steps.
  rewrite Hnested. steps. rewrite Hfirst.
  erewrite run_bind
    by apply (for_each_objects restaurant_info restaurant_block restaurant_info_object).
  simpl. now destruct ds.
Qed.

Lemma get_restaurants_reply_other location_id d outer items :
  dict_lookup "error" d = None ->
  dict_lookup "data" d = Some (VDict outer) ->
  dict_lookup "data" outer = Some (VList items) ->
  forallb is_object (firstn 10 items) = false ->
  raises (get_restaurants_reply location_id (VDict d)) AttributeError.
Proof.
  intros Herr Hdata Hnested Hitems. reply_with Herr. rewrite Hdata. steps.
  rewrite Hnested. steps.
  match goal with
  | |- context [bind (for_each _ _ _) _ ?L] =>
      destruct (for_each_other restaurant_info restaurant_block
                  restaurant_info_object restaurant_info_other
                  (firstn 10 items) [] L Hitems) as [msg Hm]
  end.
  exists msg. erewrite run_bind_raise by exact Hm. reflexivity.
Qed.

Lemma get_restaurants_reply_scalar location_id d v :
  dict_lookup "error" d = None ->
  dict_lookup "data" d = Some v ->
  is_scalar v = true ->
  raises (get_restaurants_reply location_id (VDict d)) TypeError.
Proof.
  intros Herr Hdata Hv. reply_with Herr. rewrite Hdata. steps.
  destruct v; try discriminate; steps; eexists; reflexivity.
Qed.

Lemma get_restaurants_reply_unexpected location_id d :
  dict_lookup "error" d = None ->
  match dict_lookup "data" d with
  | None => True
  | Some (VDict outer) => forall items, dict_lookup "data" outer <> Some (VList items)
  | Some (VList items) => existsb (is_str "data") items = false
  | Some (VStr s) => str_contains "data" s = false
  | Some _ => False
  end ->
  returns (get_restaurants_reply location_id (VDict d))
          "Unexpected response format from the API.".
Proof.
  intros Herr Hdata. reply_with Herr.
  destruct (dict_lookup "data" d) as [v|] eqn:E; steps; [|reflexivity].
  destruct v; try contradiction; steps.
  - rewrite Hdata. steps. reflexivity.
  - rewrite Hdata. steps. reflexivity.
  - destruct (dict_lookup "data" fields) as [w|] eqn:F; steps; [|reflexivity].
    destruct w; steps; try reflexivity.
    now elim (Hdata items).
Qed.

End Replies.

(** ** The gateway *)

Section Gateway.
Context {py : Interpreter}.
Variable env : environment.

Lemma call_rapidapi_request_run endpoint params l :
  call_rapidapi_request env endpoint params l
  = ((l ++ gateway_records endpoint params (sent env endpoint params))%list,
     gateway_outcome (sent env endpoint params)).
Proof.
  unfold call_rapidapi_request, sent, gateway_records, gateway_outcome, handled.
  rewrite bind_log.
  unfold async_with, try_except, bind, lift, raise_for_status, log, ret, raise.
  cbn [opened reply closed].
  destruct (client_open env) as [u|e|b]; [|reflexivity|reflexivity].
  destruct (http_get env _ _ params 30) as [r|e|b].
  - destruct (is_success r).
    + destruct (json r), (client_close env); now rewrite <- ?app_assoc.
    + destruct (client_close env); now rewrite <- ?app_assoc.
  - destruct (client_close env); now rewrite <- ?app_assoc.
  - now destruct (client_close env).
Qed.

Lemma answered_outcome x o :
  answered x o -> gateway_outcome x = handled o.
Proof. intros (Ho & Hr & Hc). unfold gateway_outcome. now rewrite Ho, Hc, Hr. Qed.

Lemma call_rapidapi_request_answered endpoint params o v :
  answered (sent env endpoint params) o -> handled o = Return v ->
  returns (call_rapidapi_request env endpoint params) v.
Proof.
  intros Ha Hv l. unfold result_of. rewrite call_rapidapi_request_run.
  cbn [snd]. now rewrite (answered_outcome _ _ Ha).
Qed.

Lemma fails_returns endpoint params msg :
  fails env endpoint params msg ->
  returns (call_rapidapi_request env endpoint params) (error_value msg).
Proof.
  intros [e Ha <-|r Ha Hs <-|r e Ha Hs Hj <-];
    eapply call_rapidapi_request_answered; try exact Ha; unfold handled.
  - reflexivity.
  - now rewrite Hs.
  - now rewrite Hs, Hj.
Qed.

Lemma succeeds_returns endpoint params body :
  succeeds env endpoint params body ->
  returns (call_rapidapi_request env endpoint params) body.
Proof.
  intros (r & Ha & Hs & Hj). eapply call_rapidapi_request_answered; [exact Ha|].
  unfold handled. now rewrite Hs, Hj.
Qed.

Lemma search_locations_via query result text :
  returns (call_rapidapi_request env locations_endpoint (Some [("query", query)])) result ->
  returns (search_locations_reply query result) text ->
  returns (search_locations env query) text.
Proof.
  intros Hg Hr. unfold search_locations.
  eapply returns_bind; [apply returns_log|].
  eapply returns_bind; [exact Hg|exact Hr].
Qed.

Lemma search_locations_raises_via query result c :
  returns (call_rapidapi_request env locations_endpoint (Some [("query", query)])) result ->
  raises (search_locations_reply query result) c ->
  raises (search_locations env query) c.
Proof.
  intros Hg Hr. unfold search_locations.
  eapply raises_bind; [apply returns_log|].
  eapply raises_bind; [exact Hg|exact Hr].
Qed.

Lemma get_restaurants_via location_id result text :
  returns (call_rapidapi_request env restaurants_endpoint
             (Some [("locationId", location_id)])) result ->
  returns (get_restaurants_reply location_id result) text ->
  returns (get_restaurants env location_id) text.
Proof.
  intros Hg Hr. unfold get_restaurants.
  eapply returns_bind; [apply returns_log|].
  eapply returns_bind; [exact Hg|exact Hr].
Qed.

Lemma get_restaurants_raises_via location_id result c :
  returns (call_rapidapi_request env restaurants_endpoint
             (Some [("locationId", location_id)])) result ->
  raises (get_restaurants_reply location_id result) c ->
  raises (get_restaurants env location_id) c.
Proof.
  intros Hg Hr. unfold get_restaurants.
  eapply raises_bind; [apply returns_log|].
  eapply raises_bind; [exact Hg|exact Hr].
Qed.

(** C1, amended. When the client opens and closes, [call_rapidapi_request]
    returns [{"error": msg}] when the transport fails, the status is not
    2xx or the body does not decode ([msg] being the text of the
    exception), and the decoded body on success; no exception that derives
    from [Exception] leaves it, and one that does not (a cancellation)
    leaves it only when the GET or the decoding was left by it. *)
Theorem call_rapidapi_request_boundary endpoint params :
  (forall msg, fails env endpoint params msg ->
     returns (call_rapidapi_request env endpoint params)
             (VDict [("error", VStr msg)]))
  /\ (forall body, succeeds env endpoint params body ->
        returns (call_rapidapi_request env endpoint params) body)
  /\ (client_open env = Return tt -> client_close env = Return tt ->
      forall l,
        match result_of (call_rapidapi_request env endpoint params) l with
        | Return _ => True
        | Raise _ => False
        | Escape b =>
            reply (sent env endpoint params) = Escape b
            \/ exists r, reply (sent env endpoint params) = Return r
                         /\ json r = Escape b
        end).
Proof.
  split; [|split].
  - intros msg Hf. exact (fails_returns _ _ _ Hf).
  - intros body Hs. exact (succeeds_returns _ _ _ Hs).
  - intros Ho Hc l. unfold result_of. rewrite call_rapidapi_request_run.
    cbn [snd]. unfold gateway_outcome, sent. cbn [opened reply closed].
    rewrite Ho, Hc. unfold handled.
    destruct (http_get env _ _ params 30) as [r|e|b]; [|exact I|now left].
    destruct (is_success r); [|exact I].
    destruct (json r) as [body|e|b] eqn:Hj; [exact I|exact I|].
    right. now exists r.
Qed.

End Gateway.

(** ** Strings and lists of entries *)

Lemma newlines_append a b : newlines (a ++ b) = newlines a + newlines b.
Proof. induction a as [|c a IH]; simpl; [reflexivity|rewrite IH; lia]. Qed.

Lemma append_assoc a b c : ((a ++ b) ++ c = a ++ (b ++ c))%string.
Proof. induction a as [|x a IH]; simpl; [reflexivity|now rewrite IH]. Qed.

Lemma length_append a b :
  String.length (a ++ b) = String.length a + String.length b.
Proof. induction a as [|c a IH]; simpl; [reflexivity|now rewrite IH]. Qed.

Lemma objects_of items :
  forallb is_object items = true -> exists ds, items = map VDict ds.
Proof.
  induction items as [|x items IH]; simpl; intros H.
  - now exists [].
  - apply andb_prop in H as [Hx Hrest]. destruct (IH Hrest) as [ds ->].
    destruct x; try discriminate. now exists (fields :: ds).
Qed.

(** ** The tools *)

Section Tools.
Context {py : Interpreter}.
Variable env : environment.

Local Abbreviation gateway_locations query result :=
  (returns (call_rapidapi_request env locations_endpoint
              (Some [("query", query)])) result).
Local Abbreviation gateway_restaurants location_id result :=
  (returns (call_rapidapi_request env restaurants_endpoint
              (Some [("locationId", location_id)])) result).

(** C2. When the gateway result is a dict without ["error"] whose
    ["data"] is a list of N >= 1 location objects, [search_locations]
    returns the N four-line blocks of the entries, in the order of the
    list, joined by the separator; an entry without ["longitude"] shows
    [N/A] as the second coordinate. *)
Theorem search_locations_blocks query d ds :
  gateway_locations query (VDict d) ->
  dict_lookup "error" d = None ->
  dict_lookup "data" d = Some (VList (map VDict ds)) ->
  1 <= List.length ds ->
  let blocks := map location_block ds in
  returns (search_locations env query) (String.concat (nl ++ "---" ++ nl) blocks)
  /\ List.length blocks = List.length ds
  /\ (forall i o, nth_error ds i = Some o ->
        nth_error blocks i = Some (location_block o))
  /\ (forall o,
        newlines (location_block o)
        = 4 + newlines (field_text o "localizedName" "Unknown")
            + newlines (field_text o "locationId" "Unknown")
            + newlines (field_text o "latitude" "N/A")
            + newlines (field_text o "longitude" "N/A")
            + newlines (field_text o "placeType" "Unknown"))
  /\ (forall o, dict_lookup "longitude" o = None ->
        location_block o
        = "Name: " ++ field_text o "localizedName" "Unknown" ++ nl
          ++ "Location Id: " ++ field_text o "locationId" "Unknown" ++ nl
          ++ "Coordinates: " ++ field_text o "latitude" "N/A" ++ ", N/A" ++ nl
          ++ "PlaceType: " ++ field_text o "placeType" "Unknown" ++ nl).
Proof.
  intros Hg Herr Hdata Hn blocks. repeat split.
  - eapply search_locations_via; [exact Hg|].
    pose proof (search_locations_reply_objects query d ds Herr Hdata) as H.
    destruct ds; [simpl in Hn; lia|exact H].
  - apply length_map.
  - intros i o Hi. now apply map_nth_error.
  - intros o. unfold location_block. rewrite !newlines_append. simpl. lia.
  - intros o Hlon. unfold location_block, field_text at 4. now rewrite Hlon.
Qed.

(** C3. When the gateway result is a dict without ["error"] whose
    ["data"]["data"] is a list of more than 10 restaurant objects,
    [get_restaurants] returns the blocks of the first 10 entries, in
    order, joined by the separator: exactly 10 blocks. *)
Theorem get_restaurants_first_ten location_id d outer ds :
  gateway_restaurants location_id (VDict d) ->
  dict_lookup "error" d = None ->
  dict_lookup "data" d = Some (VDict outer) ->
  dict_lookup "data" outer = Some (VList (map VDict ds)) ->
  10 < List.length ds ->
  let blocks := map restaurant_block (firstn 10 ds) in
  returns (get_restaurants env location_id) (String.concat (nl ++ "---" ++ nl) blocks)
  /\ List.length blocks = 10
  /\ (forall i o, i < 10 -> nth_error ds i = Some o ->
        nth_error blocks i = Some (restaurant_block o)).
Proof.
  intros Hg Herr Hdata Hnested Hn blocks. repeat split.
  - eapply get_restaurants_via; [exact Hg|].
    pose proof (get_restaurants_reply_objects location_id d outer _ (firstn 10 ds)
                  Herr Hdata Hnested (firstn_map _ _ _)) as H.
    destruct ds as [|o ds]; [simpl in Hn; lia|exact H].
  - unfold blocks. rewrite length_map, length_firstn. lia.
  - intros i o Hi Ho. apply map_nth_error.
    rewrite nth_error_firstn. apply Nat.ltb_lt in Hi. now rewrite Hi.
Qed.

(** C5. When the gateway result is a dict with an ["error"] key, each
    tool returns its fixed phrase followed by the value of that key as an
    f-string inserts it (a message string: verbatim); all it does with the
    result is to log that one error, so no entry is formatted. *)
Theorem error_marker_is_reported d v :
  dict_lookup "error" d = Some v ->
  (forall query, gateway_locations query (VDict d) ->
     returns (search_locations env query) ("Error fetching locations: " ++ py_str v))
  /\ (forall location_id, gateway_restaurants location_id (VDict d) ->
        returns (get_restaurants env location_id)
                ("Error fetching restaurants: " ++ py_str v))
  /\ (forall query l,
        search_locations_reply query (VDict d) l
        = ((l ++ [(ERROR, ("Error in search_locations: " ++ py_str v)%string)])%list,
           Return ("Error fetching locations: " ++ py_str v)))
  /\ (forall location_id l,
        get_restaurants_reply location_id (VDict d) l
        = ((l ++ [(ERROR, ("Error in get_restaurants: " ++ py_str v)%string)])%list,
           Return ("Error fetching restaurants: " ++ py_str v)))
  /\ (forall msg, v = VStr msg -> py_str v = msg).
Proof.
  intros Herr. repeat split.
  - intros query Hg. eapply search_locations_via; [exact Hg|].
    now apply search_locations_reply_error.
  - intros location_id Hg. eapply get_restaurants_via; [exact Hg|].
    now apply get_restaurants_reply_error.
  - intros query l. unfold search_locations_reply, py_contains, py_getitem.
    now rewrite Herr.
  - intros location_id l. unfold get_restaurants_reply, py_contains, py_getitem.
    now rewrite Herr.
  - now intros msg ->.
Qed.

(** C6, amended. When the gateway result is a dict without ["error"]
    whose data list is present but empty (["data"] for
    [search_locations], ["data"]["data"] for [get_restaurants]), the tool
    returns exactly its "no results" sentence. *)
Theorem empty_list_is_no_results d :
  dict_lookup "error" d = None ->
  (forall query, gateway_locations query (VDict d) ->
     dict_lookup "data" d = Some (VList []) ->
     returns (search_locations env query) "No locations found matching your query.")
  /\ (forall location_id outer, gateway_restaurants location_id (VDict d) ->
        dict_lookup "data" d = Some (VDict outer) ->
        dict_lookup "data" outer = Some (VList []) ->
        returns (get_restaurants env location_id)
                "No Restaurants found for this location and dates.").
Proof.
  intros Herr. split.
  - intros query Hg Hdata. eapply search_locations_via; [exact Hg|].
    exact (search_locations_reply_objects query d [] Herr Hdata).
  - intros location_id outer Hg Hdata Hnested.
    eapply get_restaurants_via; [exact Hg|].
    exact (get_restaurants_reply_objects location_id d outer [] [] Herr Hdata
             Hnested eq_refl).
Qed.

(** C7. For an entry that is a JSON object, the loop body of either tool
    returns (it never raises) the block with every one of its lines, and a
    field the entry lacks appears there as its placeholder: [Unknown], or
    [N/A] for the latitude and the longitude. *)
Theorem missing_fields_are_placeholders (o : dict) :
  (forall l, location_info (VDict o) l
             = (l, Return
                  ("Name: " ++ field_text o "localizedName" "Unknown" ++ nl
                   ++ "Location Id: " ++ field_text o "locationId" "Unknown" ++ nl
                   ++ "Coordinates: " ++ field_text o "latitude" "N/A" ++ ", "
                                      ++ field_text o "longitude" "N/A" ++ nl
                   ++ "PlaceType: " ++ field_text o "placeType" "Unknown" ++ nl)))
  /\ (forall l, exists rest,
        restaurant_info (VDict o) l
        = (l, Return
             ("Name: " ++ field_text o "name" "Unknown" ++ nl
              ++ "Average Rating: " ++ field_text o "averageRating" "Unknown" ++ nl
              ++ "User Review Count: " ++ field_text o "userReviewCount" "Unknown" ++ nl
              ++ "Menu Url: " ++ field_text o "menuUrl" "Unknown" ++ nl
              ++ "City Name GeoName: " ++ field_text o "parentGeoName" "Unknown" ++ nl
              ++ "Status: " ++ field_text o "currentOpenStatusCategory" "Unknown" ++ nl
              ++ "Premium: " ++ field_text o "isPremium" "Unknown" ++ nl
              ++ rest)))
  /\ (forall key placeholder,
        dict_lookup key o = None -> field_text o key placeholder = placeholder)
  /\ (forall key placeholder v,
        dict_lookup key o = Some v -> field_text o key placeholder = py_str v)
  /\ (forall query d before after,
        gateway_locations query (VDict d) ->
        dict_lookup "error" d = None ->
        dict_lookup "data" d = Some (VList (map VDict (before ++ o :: after))) ->
        returns (search_locations env query)
                (String.concat (nl ++ "---" ++ nl)
                   (map location_block (before ++ o :: after))))
  /\ (forall location_id d outer before after,
        gateway_restaurants location_id (VDict d) ->
        dict_lookup "error" d = None ->
        dict_lookup "data" d = Some (VDict outer) ->
        dict_lookup "data" outer = Some (VList (map VDict (before ++ o :: after))) ->
        returns (get_restaurants env location_id)
                (String.concat (nl ++ "---" ++ nl)
                   (map restaurant_block (firstn 10 (before ++ o :: after))))).
Proof.
  split; [|split; [|split; [|split; [|split]]]].
  - intros l. apply location_info_object.
  - intros l. exists ("Room: " ++ restaurant_lines o ++ nl).
    rewrite restaurant_info_object. unfold restaurant_block.
    generalize ("Room: " ++ restaurant_lines o ++ nl). intros rest.
    unfold restaurant_lines. now rewrite !append_assoc.
  - intros key placeholder H. unfold field_text. now rewrite H.
  - intros key placeholder v H. unfold field_text. now rewrite H.
  - intros query d before after Hg Herr Hdata.
    eapply search_locations_via; [exact Hg|].
    pose proof (search_locations_reply_objects query d _ Herr Hdata) as H.
    destruct before; exact H.
  - intros location_id d outer before after Hg Herr Hdata Hnested.
    eapply get_restaurants_via; [exact Hg|].
    pose proof (get_restaurants_reply_objects location_id d outer _
                  (firstn 10 (before ++ o :: after))
                  Herr Hdata Hnested (firstn_map _ _ _)) as H.
    destruct before; exact H.
Qed.

(** C8. The block [get_restaurants] builds for a restaurant entry is the
    seven lines of the entry, then [Room: ], then the same seven lines
    again and a newline: the text of the entry twice.  The string the tool
    returns is the join of these doubled blocks of the entries shown, the
    block of the entry at its place among them. *)
Theorem restaurant_block_is_doubled (o : dict) :
  (forall l, restaurant_info (VDict o) l
             = (l, Return (restaurant_lines o ++ "Room: " ++ restaurant_lines o ++ nl)))
  /\ String.length (restaurant_lines o ++ "Room: " ++ restaurant_lines o ++ nl)
     = 2 * String.length (restaurant_lines o) + 7
  /\ restaurant_lines o
     = "Name: " ++ field_text o "name" "Unknown" ++ nl
       ++ "Average Rating: " ++ field_text o "averageRating" "Unknown" ++ nl
       ++ "User Review Count: " ++ field_text o "userReviewCount" "Unknown" ++ nl
       ++ "Menu Url: " ++ field_text o "menuUrl" "Unknown" ++ nl
       ++ "City Name GeoName: " ++ field_text o "parentGeoName" "Unknown" ++ nl
       ++ "Status: " ++ field_text o "currentOpenStatusCategory" "Unknown" ++ nl
       ++ "Premium: " ++ field_text o "isPremium" "Unknown" ++ nl
  /\ (forall location_id d outer before after,
        gateway_restaurants location_id (VDict d) ->
        dict_lookup "error" d = None ->
        dict_lookup "data" d = Some (VDict outer) ->
        dict_lookup "data" outer = Some (VList (map VDict (before ++ o :: after))) ->
        List.length before < 10 ->
        let doubled := fun e => restaurant_lines e ++ "Room: " ++ restaurant_lines e ++ nl in
        let blocks := map doubled (firstn 10 (before ++ o :: after)) in
        returns (get_restaurants env location_id)
                (String.concat (nl ++ "---" ++ nl) blocks)
        /\ nth_error blocks (List.length before) = Some (doubled o)).
Proof.
  split; [|split; [|split]].
  - intros l. apply restaurant_info_object.
  - rewrite !length_append. simpl. lia.
  - reflexivity.
  - intros location_id d outer before after Hg Herr Hdata Hnested Hlen doubled blocks.
    split.
    + eapply get_restaurants_via; [exact Hg|].
      pose proof (get_restaurants_reply_objects location_id d outer _
                    (firstn 10 (before ++ o :: after))
                    Herr Hdata Hnested (firstn_map _ _ _)) as H.
      destruct before; exact H.
    + unfold blocks. apply map_nth_error. rewrite nth_error_firstn.
      apply Nat.ltb_lt in Hlen. rewrite Hlen.
      rewrite nth_error_app2 by lia. now rewrite Nat.sub_diag.
Qed.

End Tools.

(** ** What the tools require of the entries *)

Section Entries.
Context {py : Interpreter}.
Variable env : environment.

Lemma search_locations_unexpected query d :
  returns (call_rapidapi_request env locations_endpoint (Some [("query", query)]))
          (VDict d) ->
  dict_lookup "error" d = None ->
  (forall items, dict_lookup "data" d <> Some (VList items)) ->
  returns (search_locations env query) "Unexpected response format from the API.".
Proof.
  intros Hg Herr Hdata. eapply search_locations_via; [exact Hg|].
  now apply search_locations_reply_unexpected.
Qed.

Lemma get_restaurants_unexpected location_id d :
  returns (call_rapidapi_request env restaurants_endpoint
             (Some [("locationId", location_id)])) (VDict d) ->
  dict_lookup "error" d = None ->
  match dict_lookup "data" d with
  | None => True
  | Some (VDict outer) => forall items, dict_lookup "data" outer <> Some (VList items)
  | Some (VList items) => existsb (is_str "data") items = false
  | Some (VStr s) => str_contains "data" s = false
  | Some _ => False
  end ->
  returns (get_restaurants env location_id) "Unexpected response format from the API.".
Proof.
  intros Hg Herr Hdata. eapply get_restaurants_via; [exact Hg|].
  now apply get_restaurants_reply_unexpected.
Qed.

Lemma get_restaurants_scalar location_id d v :
  returns (call_rapidapi_request env restaurants_endpoint
             (Some [("locationId", location_id)])) (VDict d) ->
  dict_lookup "error" d = None ->
  dict_lookup "data" d = Some v ->
  is_scalar v = true ->
  raises (get_restaurants env location_id) TypeError.
Proof.
  intros Hg Herr Hdata Hv. eapply get_restaurants_raises_via; [exact Hg|].
  now apply get_restaurants_reply_scalar with (v := v).
Qed.

(** C10, amended. For a gateway result that is a dict without an
    ["error"] key: [search_locations] over a ["data"] list returns a string
    exactly when every element is a JSON object, and raises
    [AttributeError] from the field lookup when some element is not;
    [get_restaurants] over a ["data"]["data"] list does the same for the
    first 10 elements; and [get_restaurants] raises [TypeError] from the
    membership test when ["data"] is [None], a boolean or a number. *)
Theorem entries_must_be_objects d :
  dict_lookup "error" d = None ->
  (forall query items,
     returns (call_rapidapi_request env locations_endpoint (Some [("query", query)]))
             (VDict d) ->
     dict_lookup "data" d = Some (VList items) ->
     ((exists text, returns (search_locations env query) text)
      <-> forallb is_object items = true)
     /\ (forallb is_object items = false ->
         raises (search_locations env query) AttributeError))
  /\ (forall location_id outer items,
        returns (call_rapidapi_request env restaurants_endpoint
                   (Some [("locationId", location_id)])) (VDict d) ->
        dict_lookup "data" d = Some (VDict outer) ->
        dict_lookup "data" outer = Some (VList items) ->
        ((exists text, returns (get_restaurants env location_id) text)
         <-> forallb is_object (firstn 10 items) = true)
        /\ (forallb is_object (firstn 10 items) = false ->
            raises (get_restaurants env location_id) AttributeError))
  /\ (forall location_id v,
        returns (call_rapidapi_request env restaurants_endpoint
                   (Some [("locationId", location_id)])) (VDict d) ->
        dict_lookup "data" d = Some v ->
        is_scalar v = true ->
        raises (get_restaurants env location_id) TypeError).
Proof.
  intros Herr. split; [|split].
  - intros query items Hg Hdata.
    assert (Hbad : forallb is_object items = false ->
                   raises (search_locations env query) AttributeError).
    { intros Hitems. eapply search_locations_raises_via; [exact Hg|].
      now apply search_locations_reply_other with (items := items). }
    split; [split|exact Hbad].
    + intros [text Ht]. destruct (forallb is_object items) eqn:E; [reflexivity|].
      now elim (returns_not_raises _ _ _ Ht (Hbad eq_refl)).
    + intros Hall. destruct (objects_of items Hall) as [ds ->].
      eexists. eapply search_locations_via; [exact Hg|].
      exact (search_locations_reply_objects query d ds Herr Hdata).
  - intros location_id outer items Hg Hdata Hnested.
    assert (Hbad : forallb is_object (firstn 10 items) = false ->
                   raises (get_restaurants env location_id) AttributeError).
    { intros Hitems. eapply get_restaurants_raises_via; [exact Hg|].
      now apply get_restaurants_reply_other with (outer := outer) (items := items). }
    split; [split|exact Hbad].
    + intros [text Ht].
      destruct (forallb is_object (firstn 10 items)) eqn:E; [reflexivity|].
      now elim (returns_not_raises _ _ _ Ht (Hbad eq_refl)).
    + intros Hall. destruct (objects_of _ Hall) as [ds Hds].
      eexists. eapply get_restaurants_via; [exact Hg|].
      exact (get_restaurants_reply_objects location_id d outer items ds
               Herr Hdata Hnested Hds).
  - intros location_id v Hg Hdata Hv.
    exact (get_restaurants_scalar location_id d v Hg Herr Hdata Hv).
Qed.

End Entries.

(** ** An ["error"] key in a successful answer *)

(** C9. A gateway result with an ["error"] key sends both tools down the
    error branch also when the GET succeeded: a 2xx answer whose body is a
    dict with that key yields the error-prefixed string, the very string a
    transport, status or decoding failure with the same message yields. *)
Theorem upstream_error_key_reads_as_failure
    {py : Interpreter} (ok failed : environment) d v :
  dict_lookup "error" d = Some v ->
  (forall query,
     succeeds ok locations_endpoint (Some [("query", query)]) (VDict d) ->
     returns (search_locations ok query) ("Error fetching locations: " ++ py_str v)
     /\ (forall msg, v = VStr msg ->
         fails failed locations_endpoint (Some [("query", query)]) msg ->
         returns (search_locations failed query)
                 ("Error fetching locations: " ++ py_str v)))
  /\ (forall location_id,
        succeeds ok restaurants_endpoint (Some [("locationId", location_id)]) (VDict d) ->
        returns (get_restaurants ok location_id)
                ("Error fetching restaurants: " ++ py_str v)
        /\ (forall msg, v = VStr msg ->
            fails failed restaurants_endpoint (Some [("locationId", location_id)]) msg ->
            returns (get_restaurants failed location_id)
                    ("Error fetching restaurants: " ++ py_str v))).
Proof.
  intros Herr. split.
  - intros query Hok. split.
    + eapply search_locations_via; [exact (succeeds_returns _ _ _ _ Hok)|].
      apply search_locations_reply_error; exact Herr.
    + intros msg -> Hf.
      eapply search_locations_via; [exact (fails_returns _ _ _ _ Hf)|].
      apply search_locations_reply_error with (d := [("error", VStr msg)]).
      reflexivity.
  - intros location_id Hok. split.
    + eapply get_restaurants_via; [exact (succeeds_returns _ _ _ _ Hok)|].
      apply get_restaurants_reply_error; exact Herr.
    + intros msg -> Hf.
      eapply get_restaurants_via; [exact (fails_returns _ _ _ _ Hf)|].
      apply get_restaurants_reply_error with (d := [("error", VStr msg)]).
      reflexivity.
Qed.

(** ** The gateway and the tools, run with their log *)

Section Runs.
Context {py : Interpreter}.

Lemma search_locations_run env query l :
  search_locations env query l
  = bind (lift (gateway_outcome
                  (sent env locations_endpoint (Some [("query", query)]))))
         (search_locations_reply query)
      ((l ++ [(INFO, ("Searching for locations with query: " ++ query)%string)])
         ++ gateway_records locations_endpoint (Some [("query", query)])
              (sent env locations_endpoint (Some [("query", query)])))%list.
Proof.
  unfold search_locations. rewrite bind_log.
  unfold bind at 1. rewrite call_rapidapi_request_run. reflexivity.
Qed.

Lemma get_restaurants_run env location_id l :
  get_restaurants env location_id l
  = bind (lift (gateway_outcome
                  (sent env restaurants_endpoint (Some [("locationId", location_id)]))))
         (get_restaurants_reply location_id)
      ((l ++ [(INFO, ("Getting restaurants for location_id: " ++ location_id)%string)])
         ++ gateway_records restaurants_endpoint (Some [("locationId", location_id)])
              (sent env restaurants_endpoint (Some [("locationId", location_id)])))%list.
Proof.
  unfold get_restaurants. rewrite bind_log.
  unfold bind at 1. rewrite call_rapidapi_request_run. reflexivity.
Qed.

(** X1. One gateway call keeps the log written so far and appends the
    record of the call followed by at most two more.  When the client
    cannot be opened the call raises with that record alone.  When it
    opens: [failed] after a transport failure or a non-2xx status,
    [successful] after a 2xx answer that decodes, and [successful] then
    [failed] after a 2xx answer whose body does not decode, the success
    being logged before the body is read. *)
Theorem gateway_log_of_a_call env endpoint params :
  let calling := (INFO, "Calling API request to " ++ endpoint ++ " with params: "
                          ++ py_str (params_value params)) in
  let successful := (INFO, "API request to " ++ endpoint ++ " successful") in
  let failed := fun msg => (ERROR, "API request to " ++ endpoint ++ " failed: " ++ msg) in
  (forall l, exists records,
      fst (call_rapidapi_request env endpoint params l) = (l ++ calling :: records)%list
      /\ List.length records <= 2)
  /\ (forall l e, opened (sent env endpoint params) = Raise e ->
        call_rapidapi_request env endpoint params l = ((l ++ [calling])%list, Raise e))
  /\ (forall l e, opened (sent env endpoint params) = Return tt ->
        reply (sent env endpoint params) = Raise e ->
        fst (call_rapidapi_request env endpoint params l)
        = (l ++ [calling; failed (exn_str e)])%list)
  /\ (forall l r, opened (sent env endpoint params) = Return tt ->
        reply (sent env endpoint params) = Return r -> is_success r = false ->
        fst (call_rapidapi_request env endpoint params l)
        = (l ++ [calling; failed (status_error r)])%list)
  /\ (forall l r e, opened (sent env endpoint params) = Return tt ->
        reply (sent env endpoint params) = Return r -> is_success r = true ->
        json r = Raise e ->
        fst (call_rapidapi_request env endpoint params l)
        = (l ++ [calling; successful; failed (exn_str e)])%list)
  /\ (forall l r body, opened (sent env endpoint params) = Return tt ->
        reply (sent env endpoint params) = Return r -> is_success r = true ->
        json r = Return body ->
        fst (call_rapidapi_request env endpoint params l)
        = (l ++ [calling; successful])%list).
Proof.
  intros calling successful failed.
  split; [|split; [|split; [|split; [|split]]]].
  - intros l. rewrite call_rapidapi_request_run. unfold gateway_records.
    fold calling. eexists. split; [reflexivity|].
    destruct (opened _); [|simpl; lia|simpl; lia].
    destruct (reply _) as [r|e|b]; [|simpl; lia|simpl; lia].
    destruct (is_success r); [|simpl; lia].
    destruct (json r); simpl; lia.
  - intros l e H. rewrite call_rapidapi_request_run.
    unfold gateway_records, gateway_outcome. now rewrite H.
  - intros l e Ho H. rewrite call_rapidapi_request_run. unfold gateway_records.
    now rewrite Ho, H.
  - intros l r Ho H Hs. rewrite call_rapidapi_request_run. unfold gateway_records.
    now rewrite Ho, H, Hs.
  - intros l r e Ho H Hs Hj. rewrite call_rapidapi_request_run.
    unfold gateway_records. now rewrite Ho, H, Hs, Hj.
  - intros l r body Ho H Hs Hj. rewrite call_rapidapi_request_run.
    unfold gateway_records. now rewrite Ho, H, Hs, Hj.
Qed.

(** X2. A tool looks at the network through one request only: two
    servers, whatever their keys, hosts and other answers, whose networks
    answer that request alike give the same result and write the same log:
    the key and the host matter through that request only. *)
Theorem tools_depend_on_one_request env env' :
  (forall query,
     sent env locations_endpoint (Some [("query", query)])
     = sent env' locations_endpoint (Some [("query", query)]) ->
     forall l, search_locations env query l = search_locations env' query l)
  /\ (forall location_id,
        sent env restaurants_endpoint (Some [("locationId", location_id)])
        = sent env' restaurants_endpoint (Some [("locationId", location_id)]) ->
        forall l, get_restaurants env location_id l = get_restaurants env' location_id l).
Proof.
  split.
  - intros query H l. rewrite !search_locations_run. now rewrite H.
  - intros location_id H l. rewrite !get_restaurants_run. now rewrite H.
Qed.

(** X3. When the request of a tool fails (transport, status or decoding)
    with the message [msg], the tool raises nothing and returns its error
    phrase followed by [msg]. *)
Theorem failed_request_is_reported env msg :
  (forall query,
     fails env locations_endpoint (Some [("query", query)]) msg ->
     returns (search_locations env query) ("Error fetching locations: " ++ msg))
  /\ (forall location_id,
        fails env restaurants_endpoint (Some [("locationId", location_id)]) msg ->
        returns (get_restaurants env location_id)
                ("Error fetching restaurants: " ++ msg)).
Proof.
  split.
  - intros query Hf. apply search_locations_via with (result := error_value msg).
    + exact (fails_returns _ _ _ _ Hf).
    + now apply search_locations_reply_error with (v := VStr msg).
  - intros location_id Hf. apply get_restaurants_via with (result := error_value msg).
    + exact (fails_returns _ _ _ _ Hf).
    + now apply get_restaurants_reply_error with (v := VStr msg).
Qed.

End Runs.

(** ** Gateway results of every shape *)

Section Shapes.
Context {py : Interpreter}.

Ltac steps :=
  repeat first
    [ rewrite bind_ret | rewrite bind_raise | rewrite bind_log
    | progress (cbn [isinstance_list py_len py_iter py_slice_to]) ].

Ltac open_reply :=
  unfold result_of, search_locations_reply, get_restaurants_reply,
         py_contains, py_getitem.

Lemma search_locations_reply_scalar query v :
  is_scalar v = true -> raises (search_locations_reply query v) TypeError.
Proof. destruct v; try discriminate; intros _ l; eexists; reflexivity. Qed.

Lemma get_restaurants_reply_scalar_result location_id v :
  is_scalar v = true -> raises (get_restaurants_reply location_id v) TypeError.
Proof. destruct v; try discriminate; intros _ l; eexists; reflexivity. Qed.

Lemma search_locations_reply_sequence query v :
  is_sequence v = true ->
  if mentions "error" v || mentions "data" v
  then raises (search_locations_reply query v) TypeError
  else returns (search_locations_reply query v)
               "Unexpected response format from the API.".
Proof.
  destruct v; try discriminate; intros _; cbn [mentions].
  - destruct (str_contains "error" s) eqn:He; cbn [orb].
    + intros l. open_reply. rewrite He. steps. eexists. reflexivity.
    + destruct (str_contains "data" s) eqn:Hd.
      * intros l. open_reply. rewrite He, Hd. steps. eexists. reflexivity.
      * intros l. open_reply. rewrite He, Hd. steps. reflexivity.
  - destruct (existsb (is_str "error") items) eqn:He; cbn [orb].
    + intros l. open_reply. rewrite He. steps. eexists. reflexivity.
    + destruct (existsb (is_str "data") items) eqn:Hd.
      * intros l. open_reply. rewrite He, Hd. steps. eexists. reflexivity.
      * intros l. open_reply. rewrite He, Hd. steps. reflexivity.
Qed.

Lemma get_restaurants_reply_sequence location_id v :
  is_sequence v = true ->
  if mentions "error" v || mentions "data" v
  then raises (get_restaurants_reply location_id v) TypeError
  else returns (get_restaurants_reply location_id v)
               "Unexpected response format from the API.".
Proof.
  destruct v; try discriminate; intros _; cbn [mentions].
  - destruct (str_contains "error" s) eqn:He; cbn [orb].
    + intros l. open_reply. rewrite He. steps. eexists. reflexivity.
    + destruct (str_contains "data" s) eqn:Hd.
      * intros l. open_reply. rewrite He, Hd. steps. eexists. reflexivity.
      * intros l. open_reply. rewrite He, Hd. steps. reflexivity.
  - destruct (existsb (is_str "error") items) eqn:He; cbn [orb].
    + intros l. open_reply. rewrite He. steps. eexists. reflexivity.
    + destruct (existsb (is_str "data") items) eqn:Hd.
      * intros l. open_reply. rewrite He, Hd. steps. eexists. reflexivity.
      * intros l. open_reply. rewrite He, Hd. steps. reflexivity.
Qed.

(** X4. When the decoded body is not a dict: on [None], a boolean or a
    number both tools raise [TypeError] from the test for ["error"]; on a
    list or a string they raise [TypeError] from the indexing when it
    holds ["error"] or ["data"] (as an element, as a substring), and
    return the "unexpected format" sentence when it holds neither. *)
Theorem tools_on_a_body_that_is_no_dict env v :
  (forall query,
     returns (call_rapidapi_request env locations_endpoint (Some [("query", query)])) v ->
     (is_scalar v = true -> raises (search_locations env query) TypeError)
     /\ (is_sequence v = true -> mentions "error" v || mentions "data" v = true ->
         raises (search_locations env query) TypeError)
     /\ (is_sequence v = true -> mentions "error" v || mentions "data" v = false ->
         returns (search_locations env query)
                 "Unexpected response format from the API."))
  /\ (forall location_id,
        returns (call_rapidapi_request env restaurants_endpoint
                   (Some [("locationId", location_id)])) v ->
        (is_scalar v = true -> raises (get_restaurants env location_id) TypeError)
        /\ (is_sequence v = true -> mentions "error" v || mentions "data" v = true ->
            raises (get_restaurants env location_id) TypeError)
        /\ (is_sequence v = true -> mentions "error" v || mentions "data" v = false ->
            returns (get_restaurants env location_id)
                    "Unexpected response format from the API.")).
Proof.
  split.
  - intros query Hg. split; [|split].
    + intros Hv. eapply search_locations_raises_via; [exact Hg|].
      now apply search_locations_reply_scalar.
    + intros Hv Hm. eapply search_locations_raises_via; [exact Hg|].
      pose proof (search_locations_reply_sequence query v Hv) as H.
      now rewrite Hm in H.
    + intros Hv Hm. eapply search_locations_via; [exact Hg|].
      pose proof (search_locations_reply_sequence query v Hv) as H.
      now rewrite Hm in H.
  - intros location_id Hg. split; [|split].
    + intros Hv. eapply get_restaurants_raises_via; [exact Hg|].
      now apply get_restaurants_reply_scalar_result.
    + intros Hv Hm. eapply get_restaurants_raises_via; [exact Hg|].
      pose proof (get_restaurants_reply_sequence location_id v Hv) as H.
      now rewrite Hm in H.
    + intros Hv Hm. eapply get_restaurants_via; [exact Hg|].
      pose proof (get_restaurants_reply_sequence location_id v Hv) as H.
      now rewrite Hm in H.
Qed.

End Shapes.

(** ** The exceptions a tool can raise *)

Section Exceptions.
Context {py : Interpreter}.

Ltac steps :=
  repeat first
    [ rewrite bind_ret | rewrite bind_raise | rewrite bind_log
    | progress (cbn [isinstance_list py_len py_iter py_slice_to]) ].

Lemma returns_raises_at_most {A} (m : M A) a classes :
  returns m a -> raises_at_most m classes.
Proof. intros H l. now rewrite (H l). Qed.

Lemma raises_raises_at_most {A} (m : M A) c classes :
  In c classes -> raises m c -> raises_at_most m classes.
Proof. intros Hc H l. destruct (H l) as [msg ->]. exact Hc. Qed.

Lemma get_restaurants_reply_nested_sequence location_id d w :
  dict_lookup "error" d = None ->
  dict_lookup "data" d = Some w ->
  is_sequence w = true ->
  mentions "data" w = true ->
  raises (get_restaurants_reply location_id (VDict d)) TypeError.
Proof.
  intros Herr Hdata Hw Hm l.
  unfold result_of, get_restaurants_reply, py_contains, py_getitem.
  rewrite Herr. steps. rewrite Hdata. steps.
  destruct w; try discriminate; cbn [mentions] in Hm; rewrite Hm; steps;
    eexists; reflexivity.
Qed.

Lemma search_locations_reply_dict_raises query d :
  raises_at_most (search_locations_reply query (VDict d)) [AttributeError].
Proof.
  destruct (dict_lookup "error" d) as [e|] eqn:Herr.
  { eapply returns_raises_at_most. exact (search_locations_reply_error query d e Herr). }
  destruct (dict_lookup "data" d) as [w|] eqn:Hdata.
  2:{ eapply returns_raises_at_most. apply search_locations_reply_unexpected; [exact Herr|].
      intros items. now rewrite Hdata. }
  destruct (isinstance_list w) eqn:Hw.
  - destruct w; try discriminate.
    destruct (forallb is_object items) eqn:Hitems.
    + destruct (objects_of items Hitems) as [ds ->].
      eapply returns_raises_at_most.
      exact (search_locations_reply_objects query d ds Herr Hdata).
    + eapply raises_raises_at_most; [left; reflexivity|].
      exact (search_locations_reply_other query d items Herr Hdata Hitems).
  - eapply returns_raises_at_most. apply search_locations_reply_unexpected; [exact Herr|].
    intros items. rewrite Hdata. intros E. injection E as ->. discriminate.
Qed.

Lemma get_restaurants_reply_dict_raises location_id d :
  raises_at_most (get_restaurants_reply location_id (VDict d))
                 [TypeError; AttributeError].
Proof.
  destruct (dict_lookup "error" d) as [e|] eqn:Herr.
  { eapply returns_raises_at_most.
    exact (get_restaurants_reply_error location_id d e Herr). }
  destruct (dict_lookup "data" d) as [w|] eqn:Hdata.
  2:{ eapply returns_raises_at_most.
      apply get_restaurants_reply_unexpected; [exact Herr|]. now rewrite Hdata. }
  destruct (is_scalar w) eqn:Hscalar.
  { eapply raises_raises_at_most; [left; reflexivity|].
    exact (get_restaurants_reply_scalar location_id d w Herr Hdata Hscalar). }
  destruct (is_sequence w) eqn:Hseq.
  { destruct (mentions "data" w) eqn:Hm.
    - eapply raises_raises_at_most; [left; reflexivity|].
      exact (get_restaurants_reply_nested_sequence location_id d w Herr Hdata Hseq Hm).
    - eapply returns_raises_at_most.
      apply get_restaurants_reply_unexpected; [exact Herr|]. rewrite Hdata.
      destruct w; try discriminate; exact Hm. }
  destruct w; try discriminate.
  destruct (dict_lookup "data" fields) as [inner|] eqn:Hnested.
  2:{ eapply returns_raises_at_most.
      apply get_restaurants_reply_unexpected; [exact Herr|]. rewrite Hdata.
      intros items. now rewrite Hnested. }
  destruct (isinstance_list inner) eqn:Hinner.
  - destruct inner; try discriminate.
    destruct (forallb is_object (firstn 10 items)) eqn:Hitems.
    + destruct (objects_of _ Hitems) as [ds Hds].
      eapply returns_raises_at_most.
      exact (get_restaurants_reply_objects location_id d fields items ds
               Herr Hdata Hnested Hds).
    + eapply raises_raises_at_most; [right; left; reflexivity|].
      exact (get_restaurants_reply_other location_id d fields items
               Herr Hdata Hnested Hitems).
  - eapply returns_raises_at_most.
    apply get_restaurants_reply_unexpected; [exact Herr|]. rewrite Hdata.
    intros items. rewrite Hnested. intros E. injection E as ->. discriminate.
Qed.

Lemma search_locations_reply_raises query v :
  raises_at_most (search_locations_reply query v) [TypeError; AttributeError].
Proof.
  destruct (is_scalar v) eqn:Hscalar.
  { eapply raises_raises_at_most; [left; reflexivity|].
    now apply search_locations_reply_scalar. }
  destruct (is_sequence v) eqn:Hseq.
  { pose proof (search_locations_reply_sequence query v Hseq) as H.
    destruct (mentions "error" v || mentions "data" v).
    - eapply raises_raises_at_most; [left; reflexivity|exact H].
    - eapply returns_raises_at_most. exact H. }
  destruct v; try discriminate.
  intros l. pose proof (search_locations_reply_dict_raises query fields l) as H.
  destruct (result_of _ l); [exact I| |exact H]. right. exact H.
Qed.

Lemma get_restaurants_reply_raises location_id v :
  raises_at_most (get_restaurants_reply location_id v) [TypeError; AttributeError].
Proof.
  destruct (is_scalar v) eqn:Hscalar.
  { eapply raises_raises_at_most; [left; reflexivity|].
    now apply get_restaurants_reply_scalar_result. }
  destruct (is_sequence v) eqn:Hseq.
  { pose proof (get_restaurants_reply_sequence location_id v Hseq) as H.
    destruct (mentions "error" v || mentions "data" v).
    - eapply raises_raises_at_most; [left; reflexivity|exact H].
    - eapply returns_raises_at_most. exact H. }
  destruct v; try discriminate.
  apply get_restaurants_reply_dict_raises.
Qed.

Lemma search_locations_after env query v l :
  returns (call_rapidapi_request env locations_endpoint (Some [("query", query)])) v ->
  exists l', result_of (search_locations env query) l
             = result_of (search_locations_reply query v) l'.
Proof.
  intros Hg. unfold result_of, search_locations. rewrite bind_log.
  specialize (Hg (l ++ [(INFO, ("Searching for locations with query: " ++ query)%string)])%list).
  unfold result_of in Hg. unfold bind at 1.
  destruct (call_rapidapi_request env _ _ _) as [l' o]. cbn [snd] in Hg. subst o.
  now exists l'.
Qed.

Lemma get_restaurants_after env location_id v l :
  returns (call_rapidapi_request env restaurants_endpoint
             (Some [("locationId", location_id)])) v ->
  exists l', result_of (get_restaurants env location_id) l
             = result_of (get_restaurants_reply location_id v) l'.
Proof.
  intros Hg. unfold result_of, get_restaurants. rewrite bind_log.
  specialize (Hg (l ++ [(INFO, ("Getting restaurants for location_id: " ++ location_id)%string)])%list).
  unfold result_of in Hg. unfold bind at 1.
  destruct (call_rapidapi_request env _ _ _) as [l' o]. cbn [snd] in Hg. subst o.
  now exists l'.
Qed.

(** X5. Whatever value the gateway returns, a tool returns a string or
    raises [TypeError] or [AttributeError] and nothing else: every
    indexing follows a successful membership test, so no [KeyError] comes
    out.  When the gateway result is a dict, [search_locations] can raise
    [AttributeError] only. *)
Theorem tools_raise_type_or_attribute_errors_only env :
  (forall query v,
     returns (call_rapidapi_request env locations_endpoint (Some [("query", query)])) v ->
     raises_at_most (search_locations env query) [TypeError; AttributeError])
  /\ (forall location_id v,
        returns (call_rapidapi_request env restaurants_endpoint
                   (Some [("locationId", location_id)])) v ->
        raises_at_most (get_restaurants env location_id) [TypeError; AttributeError])
  /\ (forall query d,
        returns (call_rapidapi_request env locations_endpoint (Some [("query", query)]))
                (VDict d) ->
        raises_at_most (search_locations env query) [AttributeError]).
Proof.
  split; [|split].
  - intros query v Hg l. destruct (search_locations_after env query v l Hg) as [l' ->].
    apply search_locations_reply_raises.
  - intros location_id v Hg l.
    destruct (get_restaurants_after env location_id v l Hg) as [l' ->].
    apply get_restaurants_reply_raises.
  - intros query d Hg l. destruct (search_locations_after env query _ l Hg) as [l' ->].
    apply search_locations_reply_dict_raises.
Qed.

End Exceptions.

(** ** The text of a listing *)

Section Listings.
Context {py : Interpreter}.
Variable env : environment.

Lemma newlines_concat (blocks : list string) :
  blocks <> [] ->
  newlines (String.concat sep blocks) + 2
  = list_sum (map newlines blocks) + 2 * List.length blocks.
Proof.
  induction blocks as [|b rest IH]; [congruence|]. intros _.
  destruct rest as [|b' rest'].
  - simpl. lia.
  - change (String.concat sep (b :: b' :: rest'))
      with (b ++ sep ++ String.concat sep (b' :: rest')).
    rewrite !newlines_append.
    assert (H : b' :: rest' <> []) by discriminate.
    specialize (IH H). change (newlines sep) with 2.
    simpl list_sum in *. simpl List.length in *. lia.
Qed.

Lemma list_sum_constant {A} (f : A -> nat) k (xs : list A) :
  Forall (fun x => f x = k) xs -> list_sum (map f xs) = k * List.length xs.
Proof.
  induction 1 as [|x xs Hx _ IH]; simpl; [lia|]. rewrite Hx, IH. lia.
Qed.

Lemma location_block_lines o :
  single_line_location o -> newlines (location_block o) = 4.
Proof.
  intros (H1 & H2 & H3 & H4 & H5). unfold location_block.
  rewrite !newlines_append, H1, H2, H3, H4, H5. reflexivity.
Qed.

Lemma restaurant_block_lines o :
  single_line_restaurant o -> newlines (restaurant_block o) = 15.
Proof.
  intros (H1 & H2 & H3 & H4 & H5 & H6 & H7).
  unfold restaurant_block, restaurant_lines.
  rewrite !newlines_append, H1, H2, H3, H4, H5, H6, H7. reflexivity.
Qed.

Lemma listing_starts_with_name (first : string) (rest : list string) x :
  first = "Name: " ++ x ->
  exists y, String.concat sep (first :: rest) = "Name: " ++ y.
Proof.
  intros ->. destruct rest as [|b bs].
  - now exists x.
  - exists (x ++ sep ++ String.concat sep (b :: bs)).
    change (String.concat sep (("Name: " ++ x) :: b :: bs))
      with (("Name: " ++ x) ++ sep ++ String.concat sep (b :: bs)).
    now rewrite append_assoc.
Qed.

(** X6. [get_restaurants] shows every entry of a list of one to ten
    restaurant objects, and of a longer list the first ten whatever
    follows them: entries after the tenth are not looked at, objects or
    not. *)
Theorem get_restaurants_shows_up_to_ten location_id d outer items :
  returns (call_rapidapi_request env restaurants_endpoint
             (Some [("locationId", location_id)])) (VDict d) ->
  dict_lookup "error" d = None ->
  dict_lookup "data" d = Some (VDict outer) ->
  dict_lookup "data" outer = Some (VList items) ->
  (forall ds, items = map VDict ds -> 1 <= List.length ds <= 10 ->
     returns (get_restaurants env location_id)
             (String.concat (nl ++ "---" ++ nl) (map restaurant_block ds)))
  /\ (forall ds rest, items = (map VDict ds ++ rest)%list -> List.length ds = 10 ->
        returns (get_restaurants env location_id)
                (String.concat (nl ++ "---" ++ nl) (map restaurant_block ds))).
Proof.
  intros Hg Herr Hdata Hnested. split.
  - intros ds -> [Hlo Hhi]. eapply get_restaurants_via; [exact Hg|].
    assert (Hfirst : firstn 10 (map VDict ds) = map VDict ds).
    { apply firstn_all2. now rewrite length_map. }
    pose proof (get_restaurants_reply_objects location_id d outer _ ds
                  Herr Hdata Hnested Hfirst) as H.
    destruct ds; [simpl in Hlo; lia|exact H].
  - intros ds rest -> Hlen. eapply get_restaurants_via; [exact Hg|].
    assert (Hfirst : firstn 10 (map VDict ds ++ rest) = map VDict ds).
    { rewrite firstn_app, length_map, Hlen. simpl firstn at 2.
      rewrite app_nil_r. apply firstn_all2. rewrite length_map. lia. }
    pose proof (get_restaurants_reply_objects location_id d outer _ ds
                  Herr Hdata Hnested Hfirst) as H.
    destruct ds; [discriminate|exact H].
Qed.

(** X7. For a gateway result without ["error"] whose data list holds
    objects only, the "no results" sentence is returned when the list is
    empty and only then, and the "unexpected format" sentence never: a
    listing starts with [Name: ]. *)
Theorem no_results_sentence_iff_empty d ds :
  dict_lookup "error" d = None ->
  (forall query text,
     returns (call_rapidapi_request env locations_endpoint (Some [("query", query)]))
             (VDict d) ->
     dict_lookup "data" d = Some (VList (map VDict ds)) ->
     returns (search_locations env query) text ->
     (text = "No locations found matching your query." <-> ds = [])
     /\ text <> "Unexpected response format from the API.")
  /\ (forall location_id outer text,
        returns (call_rapidapi_request env restaurants_endpoint
                   (Some [("locationId", location_id)])) (VDict d) ->
        dict_lookup "data" d = Some (VDict outer) ->
        dict_lookup "data" outer = Some (VList (map VDict ds)) ->
        returns (get_restaurants env location_id) text ->
        (text = "No Restaurants found for this location and dates." <-> ds = [])
        /\ text <> "Unexpected response format from the API.").
Proof.
  intros Herr. split.
  - intros query text Hg Hdata Ht.
    pose proof (search_locations_via env query _ _ Hg
                  (search_locations_reply_objects query d ds Herr Hdata)) as H.
    rewrite (returns_inj _ _ _ Ht H). destruct ds as [|o rest].
    + split; [split; reflexivity|discriminate].
    + cbn [truthy map].
      destruct (listing_starts_with_name (location_block o) (map location_block rest)
                  _ eq_refl) as [y ->].
      split; [split; discriminate|discriminate].
  - intros location_id outer text Hg Hdata Hnested Ht.
    pose proof (get_restaurants_via env location_id _ _ Hg
                  (get_restaurants_reply_objects location_id d outer _ (firstn 10 ds)
                     Herr Hdata Hnested (firstn_map _ _ _))) as H.
    rewrite (returns_inj _ _ _ Ht H). destruct ds as [|o rest].
    + split; [split; reflexivity|discriminate].
    + change (firstn 10 (o :: rest)) with (o :: firstn 9 rest). cbn [truthy map].
      destruct (listing_starts_with_name (restaurant_block o)
                  (map restaurant_block (firstn 9 rest))
                  (field_text o "name" "Unknown" ++ nl
                   ++ "Average Rating: " ++ field_text o "averageRating" "Unknown" ++ nl
                   ++ "User Review Count: "
                   ++ field_text o "userReviewCount" "Unknown" ++ nl
                   ++ "Menu Url: " ++ field_text o "menuUrl" "Unknown" ++ nl
                   ++ "City Name GeoName: "
                   ++ field_text o "parentGeoName" "Unknown" ++ nl
                   ++ "Status: "
                   ++ field_text o "currentOpenStatusCategory" "Unknown" ++ nl
                   ++ "Premium: " ++ field_text o "isPremium" "Unknown" ++ nl
                   ++ "Room: " ++ restaurant_lines o ++ nl)) as [y ->].
      { unfold restaurant_block. unfold restaurant_lines at 1.
        now rewrite !append_assoc. }
      split; [split; discriminate|discriminate].
Qed.

(** X8. When every field of every entry is shown on one line, a listing
    of N >= 1 locations has 6N - 2 line ends (four per block, two per
    separator), and a listing of restaurants 17M - 2 for the M = min(N, 10)
    entries shown (fifteen per block). *)
Theorem listings_line_count d ds :
  dict_lookup "error" d = None ->
  1 <= List.length ds ->
  (forall query,
     returns (call_rapidapi_request env locations_endpoint (Some [("query", query)]))
             (VDict d) ->
     dict_lookup "data" d = Some (VList (map VDict ds)) ->
     Forall single_line_location ds ->
     exists text, returns (search_locations env query) text
                  /\ newlines text = 6 * List.length ds - 2)
  /\ (forall location_id outer,
        returns (call_rapidapi_request env restaurants_endpoint
                   (Some [("locationId", location_id)])) (VDict d) ->
        dict_lookup "data" d = Some (VDict outer) ->
        dict_lookup "data" outer = Some (VList (map VDict ds)) ->
        Forall single_line_restaurant (firstn 10 ds) ->
        exists text, returns (get_restaurants env location_id) text
                     /\ newlines text = 17 * Nat.min 10 (List.length ds) - 2).
Proof.
  intros Herr Hn. split.
  - intros query Hg Hdata Hlines. eexists. split.
    + eapply search_locations_via; [exact Hg|].
      exact (search_locations_reply_objects query d ds Herr Hdata).
    + destruct ds as [|o rest]; [simpl in Hn; lia|]. cbn [truthy].
      assert (Hne : map location_block (o :: rest) <> []) by discriminate.
      pose proof (newlines_concat _ Hne) as H.
      rewrite (list_sum_constant newlines 4) in H.
      * rewrite length_map in H. unfold dict in *. lia.
      * apply Forall_map. eapply Forall_impl; [|exact Hlines].
        intros x Hx. now apply location_block_lines.
  - intros location_id outer Hg Hdata Hnested Hlines. eexists. split.
    + eapply get_restaurants_via; [exact Hg|].
      exact (get_restaurants_reply_objects location_id d outer _ (firstn 10 ds)
               Herr Hdata Hnested (firstn_map _ _ _)).
    + destruct ds as [|o rest]; [simpl in Hn; lia|].
      change (truthy (firstn 10 (o :: rest))) with true. cbn iota.
      assert (Hne : map restaurant_block (firstn 10 (o :: rest)) <> []) by discriminate.
      pose proof (newlines_concat _ Hne) as H.
      rewrite (list_sum_constant newlines 15) in H.
      * rewrite length_map, length_firstn in H. unfold dict in *. lia.
      * apply Forall_map. eapply Forall_impl; [|exact Hlines].
        intros x Hx. now apply restaurant_block_lines.
Qed.

End Listings.

(** ** The process *)

Section Process.
Context {py : Interpreter}.
Variable parse_args : list string -> option Z.

Lemma configure_run env l :
  configure env l
  = if falsy (env "KEY")
    then ((l ++ [(ERROR, "KEY environment variable is not set. Please create a .env file with your API key.")])%list,
          Thrown (SystemExit 1))
    else (l, Done (match env "KEY" with Some k => k | None => "" end,
                   getenv_default env "HOST" "booking-com15.p.rapidapi.com")).
Proof. unfold configure, getenv. now destruct (falsy (env "KEY")). Qed.

Lemma main_run argv s l :
  main parse_args argv s l
  = match parse_args argv with
    | Some code => (l, Thrown (SystemExit code))
    | None =>
        ((l ++ [(INFO, "Starting Restaurants MCP Server with stdio transport...")]
            ++ written s ++ stop_records (stopped s)
            ++ [(INFO, "Restaurants MCP Server shutting down...")])%list,
         main_ending (stopped s))
    end.
Proof.
  unfold main. destruct (parse_args argv) as [code|]; [reflexivity|].
  unfold pbind at 1. unfold pret at 1.
  unfold try_except_finally, pbind, plog, pret, mcp_run, handle_shutdown, sys_exit,
         stop_records, main_ending.
  destruct (stopped s) as [|e|sg]; simpl; now rewrite <- !app_assoc.
Qed.

(** X9. The server starts exactly when [KEY], taken from the environment
    or else from the [.env] file, is a non-empty string; then nothing is
    logged, the key is that string and the host is [HOST] when set (the
    empty string included) and the Booking host otherwise, and the gateway
    of the server so configured returns the body the network gives, with
    a 2xx status, to the GET of [https://HOST<endpoint>] with the key and
    the host in the two headers and a timeout of 30, whatever the network
    does with other requests.  Without a key the script logs one error and
    leaves with status 1 before [main] runs, also when the environment
    sets [KEY] to the empty string and the file has one. *)
Theorem server_starts_only_with_a_key dotenv env l :
  let key := match env "KEY" with Some v => Some v | None => dotenv "KEY" end in
  let host := match env "HOST" with
              | Some v => v
              | None => match dotenv "HOST" with
                        | Some v => v
                        | None => "booking-com15.p.rapidapi.com"
                        end
              end in
  ((exists constants, configure (load_dotenv dotenv env) l = (l, Done constants))
   <-> exists k, key = Some k /\ k <> "")
  /\ (forall k, key = Some k -> k <> "" ->
        configure (load_dotenv dotenv env) l = (l, Done (k, host))
        /\ forall net endpoint params r body,
             net ("https://" ++ host ++ endpoint)
                 [("X-RapidAPI-Key", k); ("X-RapidAPI-Host", host)] params 30%Z
             = Return r ->
             is_success r = true -> json r = Return body ->
             returns (call_rapidapi_request (deployed (k, host) net) endpoint params)
                     body)
  /\ (key = None \/ key = Some "" ->
        forall argv s,
          script parse_args dotenv env argv s l
          = ((l ++ [(ERROR, "KEY environment variable is not set. Please create a .env file with your API key.")])%list,
             Thrown (SystemExit 1))).
Proof.
  intros key host.
  assert (Hkey : load_dotenv dotenv env "KEY" = key) by reflexivity.
  assert (Hhost : getenv_default (load_dotenv dotenv env) "HOST"
                    "booking-com15.p.rapidapi.com" = host).
  { unfold getenv_default, load_dotenv, host. now destruct (env "HOST"). }
  split; [|split].
  - rewrite configure_run, Hkey. split.
    + intros [constants H]. destruct key as [k|]; simpl in H; [|discriminate].
      exists k. split; [reflexivity|]. intros ->. discriminate.
    + intros (k & -> & Hk). simpl. apply String.eqb_neq in Hk. rewrite Hk.
      eexists. reflexivity.
  - intros k Hk Hne. split.
    + rewrite configure_run, Hkey, Hhost, Hk. simpl.
      apply String.eqb_neq in Hne. now rewrite Hne.
    + intros net endpoint params r body Hnet Hs Hj l'.
      unfold result_of. rewrite call_rapidapi_request_run. cbn [snd].
      unfold gateway_outcome, sent, deployed. cbn [opened reply closed
        client_open client_close http_get KEY HOST fst snd].
      rewrite Hnet. unfold handled. now rewrite Hs, Hj.
  - intros Hk argv s. unfold script, pbind. rewrite configure_run, Hkey.
    now destruct Hk as [-> | ->].
Qed.

(** X10. The exit status of the script: 1 without a key; otherwise the
    status argparse exits with when it rejects the command line; otherwise
    0 when the serving loop returns or a handled signal stops it, and 1 when
    the loop raises. *)
Theorem script_exit_status dotenv env argv s l :
  exit_status (snd (script parse_args dotenv env argv s l))
  = expected_status (load_dotenv dotenv env "KEY") (parse_args argv) (stopped s).
Proof.
  unfold script, expected_status. unfold pbind at 1. rewrite configure_run.
  destruct (falsy (load_dotenv dotenv env "KEY")); [reflexivity|].
  unfold pbind. rewrite main_run.
  destruct (parse_args argv) as [code|]; [reflexivity|].
  now destruct (stopped s).
Qed.

(** X11. Once the command line is accepted, [main] keeps the log, writes
    the start record, lets the loop write its records, adds the error of
    the loop or the record of the signal handler when there is one, and
    always ends with the record of the shutdown; it returns 0 or 1, or
    passes on the [SystemExit] of the handler.  When argparse rejects the
    command line nothing is logged, the shutdown record included. *)
Theorem main_always_logs_the_shutdown argv s l :
  (parse_args argv = None ->
   exists middle,
     main parse_args argv s l
     = ((l ++ (INFO, "Starting Restaurants MCP Server with stdio transport...")
             :: written s ++ middle
             ++ [(INFO, "Restaurants MCP Server shutting down...")])%list,
        match stopped s with
        | Closed => Done 0%Z
        | Failed _ => Done 1%Z
        | Signalled _ => Thrown (SystemExit 0)
        end)
     /\ middle
        = match stopped s with
          | Closed => []
          | Failed e => [(ERROR, "Error starting server: " ++ exn_str e)]
          | Signalled _ =>
              [(INFO, "Received shutdown signal, shutting down gracefully...")]
          end)
  /\ (forall code, parse_args argv = Some code ->
        main parse_args argv s l = (l, Thrown (SystemExit code))).
Proof.
  split.
  - intros Hargs. exists (stop_records (stopped s)). rewrite main_run, Hargs.
    split; [|reflexivity]. now destruct (stopped s).
  - intros code Hargs. now rewrite main_run, Hargs.
Qed.

End Process.

(** ** Worked examples *)

#[local] Existing Instance ascii_interpreter.

(** Some values as the interpreter of the examples shows them. *)
Lemma rendering_examples :
  float_repr (S754_finite false 7205759403792794 (-56)) = "0.1"
  /\ float_repr (S754_finite false 15 1) = "30.0"
  /\ float_repr (S754_finite true 6876016675863329 (-47)) = "-48.857037"
  /\ float_repr (S754_finite false 5000000000000000 1) = "1e+16"
  /\ float_repr (S754_finite false 1 (-1074)) = "5e-324"
  /\ str_repr "Paris" = "'Paris'"
  /\ str_repr "L'Ami Jean" = String (ascii_of_nat 34) ("L'Ami Jean" ++ String (ascii_of_nat 34) "")
  /\ py_str (VList [VInt 1; VStr "a"; VNone; VBool true;
                    VFloat (S754_finite false 9 (-1))])
     = "[1, 'a', None, True, 4.5]".
Proof. repeat split; vm_compute; reflexivity. Qed.

Lemma answering_returns body endpoint params :
  returns (call_rapidapi_request (answering 200 body) endpoint params) body.
Proof. intros l. reflexivity. Qed.

Lemma answering_succeeds body endpoint params :
  succeeds (answering 200 body) endpoint params body.
Proof. eexists. repeat split. Qed.

Lemma unreachable_fails msg endpoint params :
  fails (unreachable msg) endpoint params msg.
Proof.
  apply transport_failure with (e := Exn TransportError msg);
    [repeat split|reflexivity].
Qed.

(** C1 as stated fails: a call cancelled while it awaits the answer is
    left by the cancellation, which [except Exception] does not take, and
    a call whose client cannot be built raises before the [try] is
    entered. *)
Lemma call_rapidapi_request_can_raise :
  result_of (call_rapidapi_request cancelled locations_endpoint paris_query) []
  = Escape CancelledError
  /\ result_of (call_rapidapi_request (no_client "No module named 'socksio'")
                  locations_endpoint paris_query) []
     = Raise (Exn ImportError "No module named 'socksio'")
  /\ ~ (exists v,
          returns (call_rapidapi_request cancelled locations_endpoint paris_query) v).
Proof.
  split; [reflexivity|]. split; [reflexivity|].
  intros [v Hv]. specialize (Hv []). discriminate Hv.
Qed.

(** The four ways of the gateway with a client that opens and closes. *)
Lemma call_rapidapi_request_boundary_cases :
  fails (unreachable "timed out") locations_endpoint paris_query "timed out"
  /\ returns (call_rapidapi_request (unreachable "timed out")
                locations_endpoint paris_query)
             (VDict [("error", VStr "timed out")])
  /\ returns (call_rapidapi_request (answering 404 VNone) locations_endpoint paris_query)
             (VDict [("error", VStr "Client error '404'")])
  /\ returns (call_rapidapi_request (garbled "Expecting value") locations_endpoint paris_query)
             (VDict [("error", VStr "Expecting value")])
  /\ succeeds (answering 200 (VDict paris_reply)) locations_endpoint paris_query
              (VDict paris_reply)
  /\ returns (call_rapidapi_request (answering 200 (VDict paris_reply))
                locations_endpoint paris_query)
             (VDict paris_reply)
  /\ client_open cancelled = Return tt /\ client_close cancelled = Return tt
  /\ match result_of (call_rapidapi_request cancelled locations_endpoint paris_query) []
     with
     | Raise _ => False
     | _ => True
     end.
Proof.
  split; [apply unreachable_fails|].
  split; [|split; [|split; [|split; [|split; [|split; [|split]]]]]].
  - apply (proj1 (call_rapidapi_request_boundary
                    (unreachable "timed out") locations_endpoint paris_query)).
    apply unreachable_fails.
  - apply (proj1 (call_rapidapi_request_boundary
                    (answering 404 VNone) locations_endpoint paris_query)).
    eapply bad_status; [repeat split|reflexivity|reflexivity].
  - apply (proj1 (call_rapidapi_request_boundary
                    (garbled "Expecting value") locations_endpoint paris_query)).
    eapply decode_failure; [repeat split|reflexivity|reflexivity|reflexivity].
  - apply answering_succeeds.
  - apply (proj1 (proj2 (call_rapidapi_request_boundary
                           (answering 200 (VDict paris_reply))
                           locations_endpoint paris_query))).
    apply answering_succeeds.
  - reflexivity.
  - reflexivity.
  - pose proof (proj2 (proj2 (call_rapidapi_request_boundary
                                cancelled locations_endpoint paris_query))
                  eq_refl eq_refl []) as H.
    destruct (result_of _ []); [exact I|exact H|exact I].
Defined.

(** The query [Paris] with two entries, the second without a longitude. *)
Lemma search_locations_blocks_paris :
  1 <= List.length paris_entries
  /\ returns (search_locations (answering 200 (VDict paris_reply)) "Paris")
       ("Name: Paris" ++ nl ++ "Location Id: 187147" ++ nl
        ++ "Coordinates: 48.857037, 2.349401" ++ nl ++ "PlaceType: CITY" ++ nl
        ++ nl ++ "---" ++ nl
        ++ "Name: Paris" ++ nl ++ "Location Id: 56432" ++ nl
        ++ "Coordinates: 33.66124, N/A" ++ nl ++ "PlaceType: CITY" ++ nl).
Proof.
  split; [simpl; lia|].
  apply (proj1 (search_locations_blocks (answering 200 (VDict paris_reply)) "Paris"
                  paris_reply paris_entries
                  (answering_returns _ _ _) eq_refl eq_refl (le_S _ _ (le_n 1)))).
Defined.

(** Twelve restaurants: ten blocks. *)
Lemma get_restaurants_first_ten_of_twelve :
  10 < List.length twelve_entries
  /\ returns (get_restaurants (answering 200 (VDict twelve_reply)) "123")
             (String.concat sep (map restaurant_block (firstn 10 twelve_entries)))
  /\ List.length (map restaurant_block (firstn 10 twelve_entries)) = 10.
Proof.
  assert (H : 10 < List.length twelve_entries) by (simpl; lia).
  split; [exact H|].
  pose proof (get_restaurants_first_ten (answering 200 (VDict twelve_reply)) "123"
                twelve_reply _ twelve_entries
                (answering_returns _ _ _) eq_refl eq_refl eq_refl H) as T.
  split; [exact (proj1 T)|exact (proj1 (proj2 T))].
Defined.

(** C4, at the answer [{"status": false, "message": "not found", "data":
    null}]: the result is a dict without ["error"] and without a nested list,
    [search_locations] answers with the fixed sentence, and
    [get_restaurants] raises [TypeError] from [in] applied to [None]. *)
Theorem get_restaurants_null_data :
  returns (call_rapidapi_request (answering 200 (VDict null_data_reply))
             restaurants_endpoint id_query)
          (VDict null_data_reply)
  /\ dict_lookup "error" null_data_reply = None
  /\ dict_lookup "data" null_data_reply = Some VNone
  /\ returns (search_locations (answering 200 (VDict null_data_reply)) "123")
             "Unexpected response format from the API."
  /\ result_of (get_restaurants (answering 200 (VDict null_data_reply)) "123") []
     = Raise (Exn TypeError "argument of type 'NoneType' is not iterable")
  /\ raises (get_restaurants (answering 200 (VDict null_data_reply)) "123") TypeError
  /\ ~ returns (get_restaurants (answering 200 (VDict null_data_reply)) "123")
               "Unexpected response format from the API.".
Proof.
  assert (Hg : forall endpoint params,
             returns (call_rapidapi_request (answering 200 (VDict null_data_reply))
                        endpoint params) (VDict null_data_reply))
    by (intros; apply answering_returns).
  assert (Hr : raises (get_restaurants (answering 200 (VDict null_data_reply)) "123")
                      TypeError).
  { apply get_restaurants_scalar with (d := null_data_reply) (v := VNone);
      [apply Hg|reflexivity|reflexivity|reflexivity]. }
  split; [apply Hg|]. split; [reflexivity|]. split; [reflexivity|].
  split.
  { apply search_locations_unexpected with (d := null_data_reply);
      [apply Hg|reflexivity|]. intros items. discriminate. }
  split; [reflexivity|]. split; [exact Hr|].
  intros Hret. exact (returns_not_raises _ _ _ Hret Hr).
Qed.

(** An unreachable upstream: both tools report the message. *)
Lemma error_marker_is_reported_timeout :
  dict_lookup "error" [("error", VStr "timed out")] = Some (VStr "timed out")
  /\ returns (search_locations (unreachable "timed out") "Paris")
             "Error fetching locations: timed out"
  /\ returns (get_restaurants (unreachable "timed out") "123")
             "Error fetching restaurants: timed out".
Proof.
  pose proof (error_marker_is_reported (unreachable "timed out")
                [("error", VStr "timed out")] (VStr "timed out") eq_refl) as T.
  split; [reflexivity|]. split.
  - apply (proj1 T). intros l. reflexivity.
  - apply (proj1 (proj2 T)). intros l. reflexivity.
Defined.

(** C6 as stated fails when the answer also carries an ["error"] key: the
    data list is present and empty, and the tool reports the error. *)
Lemma empty_list_with_error_key :
  returns (call_rapidapi_request (answering 200 (VDict quota_empty_reply))
             locations_endpoint paris_query)
          (VDict quota_empty_reply)
  /\ dict_lookup "data" quota_empty_reply = Some (VList [])
  /\ returns (search_locations (answering 200 (VDict quota_empty_reply)) "Paris")
             "Error fetching locations: quota exceeded"
  /\ ~ returns (search_locations (answering 200 (VDict quota_empty_reply)) "Paris")
               "No locations found matching your query.".
Proof.
  assert (Hs : returns (search_locations (answering 200 (VDict quota_empty_reply)) "Paris")
                       "Error fetching locations: quota exceeded")
    by (intros l; reflexivity).
  split; [apply answering_returns|]. split; [reflexivity|]. split; [exact Hs|].
  intros Hn. pose proof (returns_inj _ _ _ Hs Hn) as E. discriminate E.
Qed.

(** Empty lists without an error marker. *)
Lemma empty_list_is_no_results_cases :
  dict_lookup "error" empty_reply = None
  /\ returns (search_locations (answering 200 (VDict empty_reply)) "Atlantis")
             "No locations found matching your query."
  /\ dict_lookup "error" empty_nested_reply = None
  /\ returns (get_restaurants (answering 200 (VDict empty_nested_reply)) "123")
             "No Restaurants found for this location and dates.".
Proof.
  split; [reflexivity|]. split.
  - apply (proj1 (empty_list_is_no_results (answering 200 (VDict empty_reply))
                    empty_reply eq_refl));
      [apply answering_returns|reflexivity].
  - split; [reflexivity|].
    apply (proj2 (empty_list_is_no_results (answering 200 (VDict empty_nested_reply))
                    empty_nested_reply eq_refl))
      with (outer := [("data", VList [])]);
      [apply answering_returns|reflexivity|reflexivity].
Defined.

(** The second entry for [Paris] has no longitude, and an entry without
    any field is all placeholders. *)
Lemma missing_fields_are_placeholders_cases :
  dict_lookup "longitude" (nth 1 paris_entries []) = None
  /\ field_text (nth 1 paris_entries []) "longitude" "N/A" = "N/A"
  /\ field_text (nth 1 paris_entries []) "latitude" "N/A" = "33.66124"
  /\ dict_lookup "error" bare_reply = None
  /\ returns (search_locations (answering 200 (VDict bare_reply)) "Paris")
       ("Name: Unknown" ++ nl ++ "Location Id: Unknown" ++ nl
        ++ "Coordinates: N/A, N/A" ++ nl ++ "PlaceType: Unknown" ++ nl).
Proof.
  pose proof (missing_fields_are_placeholders (answering 200 (VDict bare_reply))
                (nth 1 paris_entries [])) as T.
  pose proof (missing_fields_are_placeholders (answering 200 (VDict bare_reply)) [])
    as B.
  split; [reflexivity|]. split; [|split; [|split; [reflexivity|]]].
  - apply (proj1 (proj2 (proj2 T))). reflexivity.
  - apply (proj1 (proj2 (proj2 (proj2 T))) "latitude" "N/A" (VStr "33.66124")).
    reflexivity.
  - apply (proj1 (proj2 (proj2 (proj2 (proj2 B)))) "Paris" bare_reply [] []);
      [apply answering_returns|reflexivity|reflexivity].
Defined.

(** A successful answer with an ["error"] key against an unreachable
    upstream. *)
Lemma upstream_error_key_reads_as_failure_quota :
  dict_lookup "error" quota_empty_reply = Some (VStr "quota exceeded")
  /\ succeeds (answering 200 (VDict quota_empty_reply)) locations_endpoint paris_query
              (VDict quota_empty_reply)
  /\ fails (unreachable "quota exceeded") locations_endpoint paris_query "quota exceeded"
  /\ returns (search_locations (answering 200 (VDict quota_empty_reply)) "Paris")
             "Error fetching locations: quota exceeded"
  /\ returns (search_locations (unreachable "quota exceeded") "Paris")
             "Error fetching locations: quota exceeded"
  /\ returns (get_restaurants (answering 200 (VDict quota_empty_reply)) "123")
             "Error fetching restaurants: quota exceeded"
  /\ returns (get_restaurants (unreachable "quota exceeded") "123")
             "Error fetching restaurants: quota exceeded".
Proof.
  pose proof (upstream_error_key_reads_as_failure
                (answering 200 (VDict quota_empty_reply)) (unreachable "quota exceeded")
                quota_empty_reply (VStr "quota exceeded") eq_refl) as [Ts Tr].
  specialize (Ts "Paris" (answering_succeeds _ _ _)).
  specialize (Tr "123" (answering_succeeds _ _ _)).
  split; [reflexivity|]. split; [apply answering_succeeds|].
  split; [apply unreachable_fails|].
  split; [exact (proj1 Ts)|].
  split; [exact (proj2 Ts _ eq_refl (unreachable_fails _ _ _))|].
  split; [exact (proj1 Tr)|].
  exact (proj2 Tr _ eq_refl (unreachable_fails _ _ _)).
Defined.

(** C10 as stated fails when the answer also carries an ["error"] key: the
    data list holds a number, and the tool returns the error string. *)
Lemma non_object_entry_with_error_key :
  returns (call_rapidapi_request (answering 200 (VDict quota_mixed_reply))
             locations_endpoint paris_query)
          (VDict quota_mixed_reply)
  /\ dict_lookup "data" quota_mixed_reply = Some (VList [VInt 5])
  /\ forallb is_object [VInt 5] = false
  /\ returns (search_locations (answering 200 (VDict quota_mixed_reply)) "Paris")
             "Error fetching locations: quota exceeded"
  /\ ~ raises (search_locations (answering 200 (VDict quota_mixed_reply)) "Paris")
              AttributeError.
Proof.
  assert (Hs : returns (search_locations (answering 200 (VDict quota_mixed_reply)) "Paris")
                       "Error fetching locations: quota exceeded")
    by (intros l; reflexivity).
  split; [apply answering_returns|]. split; [reflexivity|]. split; [reflexivity|].
  split; [exact Hs|]. exact (returns_not_raises _ _ _ Hs).
Qed.

(** A list with a string among its entries, and a [null] in place of the
    nested dict. *)
Lemma entries_must_be_objects_cases :
  dict_lookup "error" mixed_reply = None
  /\ forallb is_object [VDict [("localizedName", VStr "Paris")]; VStr "Paris"] = false
  /\ raises (search_locations (answering 200 (VDict mixed_reply)) "Paris") AttributeError
  /\ dict_lookup "error" null_data_reply = None
  /\ is_scalar VNone = true
  /\ raises (get_restaurants (answering 200 (VDict null_data_reply)) "123") TypeError.
Proof.
  pose proof (entries_must_be_objects (answering 200 (VDict mixed_reply))
                mixed_reply eq_refl) as Tm.
  pose proof (entries_must_be_objects (answering 200 (VDict null_data_reply))
                null_data_reply eq_refl) as Tn.
  split; [reflexivity|]. split; [reflexivity|]. split.
  - apply (proj2 (proj1 Tm "Paris" _ (answering_returns _ _ _) eq_refl)). reflexivity.
  - split; [reflexivity|]. split; [reflexivity|].
    apply (proj2 (proj2 Tn) "123" VNone (answering_returns _ _ _)); reflexivity.
Defined.

(** *** Further worked examples *)

(** A 2xx answer that is not JSON is logged as successful, then as
    failed; a client that cannot be built leaves the record of the call
    alone. *)
Lemma gateway_log_of_a_call_cases :
  opened (sent (garbled "Expecting value") locations_endpoint paris_query) = Return tt
  /\ reply (sent (garbled "Expecting value") locations_endpoint paris_query)
     = Return {| status_code := 200; status_error := "";
                 json := Raise (Exn JSONDecodeError "Expecting value") |}
  /\ fst (call_rapidapi_request (garbled "Expecting value")
            locations_endpoint paris_query [])
     = [(INFO, "Calling API request to /api/v1/restaurant/searchLocation with params: {'query': 'Paris'}");
        (INFO, "API request to /api/v1/restaurant/searchLocation successful");
        (ERROR, "API request to /api/v1/restaurant/searchLocation failed: Expecting value")]
  /\ opened (sent (no_client "No module named 'socksio'") locations_endpoint paris_query)
     = Raise (Exn ImportError "No module named 'socksio'")
  /\ call_rapidapi_request (no_client "No module named 'socksio'")
       locations_endpoint paris_query []
     = ([(INFO, "Calling API request to /api/v1/restaurant/searchLocation with params: {'query': 'Paris'}")],
        Raise (Exn ImportError "No module named 'socksio'")).
Proof.
  split; [reflexivity|]. split; [reflexivity|]. split.
  - exact (proj1 (proj2 (proj2 (proj2 (proj2
             (gateway_log_of_a_call (garbled "Expecting value")
                locations_endpoint paris_query)))))
             [] _ (Exn JSONDecodeError "Expecting value")
             eq_refl eq_refl eq_refl eq_refl).
  - split; [reflexivity|].
    exact (proj1 (proj2 (gateway_log_of_a_call
                           (no_client "No module named 'socksio'")
                           locations_endpoint paris_query))
             [] _ eq_refl).
Defined.

(** Two servers with different keys and hosts behind the same answer. *)
Lemma tools_depend_on_one_request_mirror :
  sent (answering 200 (VDict paris_reply)) locations_endpoint paris_query
  = sent (mirror (VDict paris_reply)) locations_endpoint paris_query
  /\ search_locations (answering 200 (VDict paris_reply)) "Paris" two_calls
     = search_locations (mirror (VDict paris_reply)) "Paris" two_calls.
Proof.
  split; [reflexivity|].
  apply (proj1 (tools_depend_on_one_request (answering 200 (VDict paris_reply))
                  (mirror (VDict paris_reply))) "Paris" eq_refl).
Defined.

(** A 404 and an unreachable upstream. *)
Lemma failed_request_is_reported_cases :
  fails (answering 404 VNone) locations_endpoint paris_query "Client error '404'"
  /\ returns (search_locations (answering 404 VNone) "Paris")
             "Error fetching locations: Client error '404'"
  /\ fails (unreachable "timed out") restaurants_endpoint id_query "timed out"
  /\ returns (get_restaurants (unreachable "timed out") "123")
             "Error fetching restaurants: timed out".
Proof.
  assert (H404 : fails (answering 404 VNone) locations_endpoint paris_query
                       "Client error '404'")
    by (eapply bad_status; [repeat split|reflexivity|reflexivity]).
  split; [exact H404|]. split.
  - exact (proj1 (failed_request_is_reported (answering 404 VNone) _) "Paris" H404).
  - split; [apply unreachable_fails|].
    exact (proj2 (failed_request_is_reported (unreachable "timed out") _) "123"
             (unreachable_fails _ _ _)).
Defined.

(** The bodies [null], [[]] and [["error"]]. *)
Lemma tools_on_a_body_that_is_no_dict_cases :
  is_scalar VNone = true
  /\ raises (search_locations (answering 200 VNone) "Paris") TypeError
  /\ is_sequence (VList []) = true
  /\ returns (get_restaurants (answering 200 (VList [])) "123")
             "Unexpected response format from the API."
  /\ mentions "error" (VList [VStr "error"]) = true
  /\ raises (search_locations (answering 200 (VList [VStr "error"])) "Paris") TypeError.
Proof.
  split; [reflexivity|]. split.
  - apply (proj1 (proj1 (tools_on_a_body_that_is_no_dict (answering 200 VNone) VNone)
                    "Paris" (answering_returns _ _ _))). reflexivity.
  - split; [reflexivity|]. split.
    + apply (proj2 (proj2 (proj2 (tools_on_a_body_that_is_no_dict
                                    (answering 200 (VList [])) (VList []))
                             "123" (answering_returns _ _ _)))); reflexivity.
    + split; [reflexivity|].
      apply (proj1 (proj2 (proj1 (tools_on_a_body_that_is_no_dict
                                    (answering 200 (VList [VStr "error"]))
                                    (VList [VStr "error"]))
                             "Paris" (answering_returns _ _ _)))); reflexivity.
Defined.

(** A dict with a string among the entries: [AttributeError] is within
    the bound; a body that is a number: [TypeError] is. *)
Lemma tools_raise_type_or_attribute_errors_only_cases :
  returns (call_rapidapi_request (answering 200 (VDict mixed_reply))
             locations_endpoint paris_query) (VDict mixed_reply)
  /\ raises_at_most (search_locations (answering 200 (VDict mixed_reply)) "Paris")
                    [AttributeError]
  /\ returns (call_rapidapi_request (answering 200 (VInt 5))
                restaurants_endpoint id_query) (VInt 5)
  /\ raises_at_most (get_restaurants (answering 200 (VInt 5)) "123")
                    [TypeError; AttributeError].
Proof.
  split; [apply answering_returns|]. split.
  - apply (proj2 (proj2 (tools_raise_type_or_attribute_errors_only
                           (answering 200 (VDict mixed_reply))))
             "Paris" mixed_reply (answering_returns _ _ _)).
  - split; [apply answering_returns|].
    apply (proj1 (proj2 (tools_raise_type_or_attribute_errors_only
                           (answering 200 (VInt 5))))
             "123" (VInt 5) (answering_returns _ _ _)).
Defined.

(** Three restaurants, and ten followed by a number and a [null]. *)
Lemma get_restaurants_shows_up_to_ten_cases :
  1 <= List.length (firstn 3 twelve_entries) <= 10
  /\ returns (get_restaurants (answering 200 (VDict three_reply)) "123")
             (String.concat sep (map restaurant_block (firstn 3 twelve_entries)))
  /\ List.length (firstn 10 twelve_entries) = 10
  /\ returns (get_restaurants (answering 200 (VDict ten_and_more_reply)) "123")
             (String.concat sep (map restaurant_block (firstn 10 twelve_entries))).
Proof.
  assert (H3 : 1 <= List.length (firstn 3 twelve_entries) <= 10) by (simpl; lia).
  split; [exact H3|]. split.
  - apply (proj1 (get_restaurants_shows_up_to_ten (answering 200 (VDict three_reply))
                    "123" three_reply _ _
                    (answering_returns _ _ _) eq_refl eq_refl eq_refl)
             (firstn 3 twelve_entries) eq_refl H3).
  - split; [reflexivity|].
    apply (proj2 (get_restaurants_shows_up_to_ten
                    (answering 200 (VDict ten_and_more_reply))
                    "123" ten_and_more_reply _ _
                    (answering_returns _ _ _) eq_refl eq_refl eq_refl)
             (firstn 10 twelve_entries) [VInt 0; VNone] eq_refl eq_refl).
Defined.

(** The listing for [Paris] is not the "no results" sentence. *)
Lemma no_results_sentence_iff_empty_paris :
  dict_lookup "error" paris_reply = None
  /\ returns (search_locations (answering 200 (VDict paris_reply)) "Paris")
             (String.concat sep (map location_block paris_entries))
  /\ String.concat sep (map location_block paris_entries)
     <> "No locations found matching your query."
  /\ String.concat sep (map location_block paris_entries)
     <> "Unexpected response format from the API.".
Proof.
  assert (Ht : returns (search_locations (answering 200 (VDict paris_reply)) "Paris")
                       (String.concat sep (map location_block paris_entries)))
    by (intros l; reflexivity).
  pose proof (proj1 (no_results_sentence_iff_empty (answering 200 (VDict paris_reply))
                       paris_reply paris_entries eq_refl)
                "Paris" _ (answering_returns _ _ _) eq_refl Ht) as [Hiff Hne].
  split; [reflexivity|]. split; [exact Ht|]. split; [|exact Hne].
  intros E. apply Hiff in E. discriminate E.
Defined.

(** The listing for [Paris]: two blocks, ten line ends. *)
Lemma listings_line_count_paris :
  Forall single_line_location paris_entries
  /\ exists text,
       returns (search_locations (answering 200 (VDict paris_reply)) "Paris") text
       /\ newlines text = 10.
Proof.
  assert (Hl : Forall single_line_location paris_entries)
    by (repeat constructor).
  split; [exact Hl|].
  exact (proj1 (listings_line_count (answering 200 (VDict paris_reply))
                  paris_reply paris_entries eq_refl (le_S _ _ (le_n 1)))
           "Paris" (answering_returns _ _ _) eq_refl Hl).
Defined.

(** A key in the environment; a key and a host in the file, with a
    network that answers the one expected request only; an empty key in
    the environment that hides the one of the file. *)
Lemma server_starts_only_with_a_key_cases :
  configure (load_dotenv without_key with_key) []
  = ([], Done ("secret", "booking-com15.p.rapidapi.com"))
  /\ configure (load_dotenv dotenv_key without_key) []
     = ([], Done ("from-file", "example.test"))
  /\ returns (call_rapidapi_request
                (deployed ("from-file", "example.test")
                   (only_at "https://example.test/api/v1/restaurant/searchLocation"
                      "from-file" "example.test" (VDict paris_reply)))
                locations_endpoint paris_query)
             (VDict paris_reply)
  /\ script no_arguments dotenv_key empty_key [] crashed []
     = ([(ERROR, "KEY environment variable is not set. Please create a .env file with your API key.")],
        Thrown (SystemExit 1)).
Proof.
  pose proof (proj1 (proj2 (server_starts_only_with_a_key no_arguments
                              dotenv_key without_key [])) "from-file" eq_refl)
    as File.
  assert (Hne : "from-file" <> "") by discriminate.
  split; [|split; [|split]].
  - apply (proj1 (proj2 (server_starts_only_with_a_key no_arguments
                           without_key with_key [])) "secret" eq_refl).
    discriminate.
  - exact (proj1 (File Hne)).
  - exact (proj2 (File Hne)
             (only_at "https://example.test/api/v1/restaurant/searchLocation"
                "from-file" "example.test" (VDict paris_reply))
             locations_endpoint paris_query _ (VDict paris_reply)
             eq_refl eq_refl eq_refl).
  - apply (proj2 (proj2 (server_starts_only_with_a_key no_arguments
                           dotenv_key empty_key []))).
    right. reflexivity.
Defined.

(** A loop that raises, and a command line with an unknown option. *)
Lemma main_always_logs_the_shutdown_cases :
  no_arguments [] = None
  /\ main no_arguments [] crashed []
     = ([(INFO, "Starting Restaurants MCP Server with stdio transport...");
         (ERROR, "Error starting server: unsupported transport");
         (INFO, "Restaurants MCP Server shutting down...")],
        Done 1%Z)
  /\ no_arguments ["--port"; "80"] = Some 2%Z
  /\ main no_arguments ["--port"; "80"] crashed [] = ([], Thrown (SystemExit 2)).
Proof.
  split; [reflexivity|]. split.
  - destruct (proj1 (main_always_logs_the_shutdown no_arguments [] crashed [])
                eq_refl) as (middle & Hrun & Hmiddle).
    rewrite Hrun, Hmiddle. reflexivity.
  - split; [reflexivity|].
    apply (proj2 (main_always_logs_the_shutdown no_arguments ["--port"; "80"]
                    crashed []) 2%Z eq_refl).
Defined.

(** One restaurant: the tool returns its seven lines twice. *)
Lemma restaurant_block_is_doubled_bistro :
  dict_lookup "error" bistro_reply = None
  /\ returns (get_restaurants (answering 200 (VDict bistro_reply)) "123")
       ("Name: Chez Nous" ++ nl ++ "Average Rating: 4" ++ nl
        ++ "User Review Count: 212" ++ nl ++ "Menu Url: Unknown" ++ nl
        ++ "City Name GeoName: Paris" ++ nl ++ "Status: OPEN" ++ nl
        ++ "Premium: False" ++ nl
        ++ "Room: Name: Chez Nous" ++ nl ++ "Average Rating: 4" ++ nl
        ++ "User Review Count: 212" ++ nl ++ "Menu Url: Unknown" ++ nl
        ++ "City Name GeoName: Paris" ++ nl ++ "Status: OPEN" ++ nl
        ++ "Premium: False" ++ nl ++ nl).
Proof.
  split; [reflexivity|].
  exact (proj1 (proj2 (proj2 (proj2
           (restaurant_block_is_doubled (answering 200 (VDict bistro_reply)) bistro)))
           "123" bistro_reply _ [] []
           (answering_returns _ _ _) eq_refl eq_refl eq_refl (Nat.lt_0_succ 9))).
Defined.
